(** * gitversion: the version-resolution core of [pkg/version/version.go]

    Shallow embedding of [GetVersionInfo] and the helpers it calls
    ([parentDir], [detectDefaultBranch], [hasUncommittedChanges],
    [createBranchSlug], [getGitDescribe]).  Go strings are byte strings and
    are modelled as [String.string] (one [ascii] per byte).  The go-git
    repository handle is a record of what the code reads from it: the
    object store, HEAD, the tag references in enumeration order, the
    [origin/HEAD] remote reference, the branch references and the
    work-tree status.  The clock is an explicit argument. *)

From Stdlib Require Import Ascii.
From Stdlib Require String.
From stdpp Require Import base gmap strings list.

Local Open Scope stdpp_scope.
#[local] Set Warnings "-abstract-large-number".

(* ------------------------------------------------------------------ *)
(** ** Go helpers: decimal formatting and [time.Format] *)

Definition utod (d : nat) : ascii := ascii_of_nat (48 + d).

(** Decimal digits of [n] (the general path of Go's [appendInt] and [%d]). *)
Fixpoint itoa_go (fuel n : nat) (acc : string) : string :=
  match fuel with
  | O => acc
  | S f =>
      let acc' := String.String (utod (n mod 10)) acc in
      if Nat.ltb n 10 then acc' else itoa_go f (n / 10) acc'
  end.

Definition itoa (n : nat) : string := itoa_go (S n) n "".

Fixpoint zeros (k : nat) : string :=
  match k with O => "" | S k' => String.String "0" (zeros k') end.

(** [appendInt(b, x, width)] of Go's [time] package for [x >= 0]: the
    two fast paths for widths 2 and 4, otherwise zero padding up to
    [width] followed by the decimal digits. *)
Definition appendInt (x width : nat) : string :=
  if Nat.eqb width 2 && Nat.ltb x 100 then
    String.String (utod (x / 10)) (String.String (utod (x mod 10)) "")
  else if Nat.eqb width 4 && Nat.ltb x 10000 then
    String.String (utod (x / 1000))
      (String.String (utod (x / 100 mod 10))
         (String.String (utod (x / 10 mod 10))
            (String.String (utod (x mod 10)) "")))
  else
    let s := itoa x in zeros (width - String.length s) +:+ s.

(** A UTC instant as [time.Now().UTC()] exposes it to [Format]. *)
Record Time := mkTime {
  year : nat; month : nat; day : nat;
  hour : nat; minute : nat; second : nat
}.

(** [t.Format("20060102150405")]. *)
Definition format_stamp (t : Time) : string :=
  appendInt (year t) 4 +:+ appendInt (month t) 2 +:+ appendInt (day t) 2 +:+
  appendInt (hour t) 2 +:+ appendInt (minute t) 2 +:+ appendInt (second t) 2.

(** [t.Format("2006-01-02T15:04:05Z")]. *)
Definition format_build (t : Time) : string :=
  appendInt (year t) 4 +:+ "-" +:+ appendInt (month t) 2 +:+ "-" +:+
  appendInt (day t) 2 +:+ "T" +:+ appendInt (hour t) 2 +:+ ":" +:+
  appendInt (minute t) 2 +:+ ":" +:+ appendInt (second t) 2 +:+ "Z".

(** A calendar-valid UTC time whose year has at most four digits. *)
Definition valid_time (t : Time) : Prop :=
  year t < 10 * 1000 /\ 1 <= month t <= 12 /\ 1 <= day t <= 31 /\
  hour t < 24 /\ minute t < 60 /\ second t < 60.

Definition is_digit (c : ascii) : bool :=
  let n := nat_of_ascii c in Nat.leb 48 n && Nat.ltb n 58.

Fixpoint all_chars (p : ascii -> bool) (s : string) : bool :=
  match s with
  | String.EmptyString => true
  | String.String c s' => p c && all_chars p s'
  end.

(* ------------------------------------------------------------------ *)
(** ** [createBranchSlug] *)

(** [strings.ReplaceAll(s, old, new)] for one-byte [old] and [new]. *)
Fixpoint replace_char (old new : ascii) (s : string) : string :=
  match s with
  | String.EmptyString => String.EmptyString
  | String.String c s' =>
      String.String (if ascii_dec c old then new else c) (replace_char old new s')
  end.

(** Membership in the character class [a-zA-Z0-9-]. *)
Definition slug_char (c : ascii) : bool :=
  let n := nat_of_ascii c in
  (Nat.leb 97 n && Nat.leb n 122) || (Nat.leb 65 n && Nat.leb n 90) ||
  (Nat.leb 48 n && Nat.leb n 57) || Nat.eqb n 45.

(** [regexp.MustCompile("[^a-zA-Z0-9-]+").ReplaceAllString(s, "")]: every
    maximal run of bytes outside the class is replaced by nothing.  A
    multi-byte UTF-8 rune consists of bytes >= 0x80, all outside the class,
    and an invalid byte decodes as U+FFFD, also outside it, so at the byte
    level every byte outside the class is dropped and every byte inside is
    kept. *)
Fixpoint strip_disallowed (s : string) : string :=
  match s with
  | String.EmptyString => String.EmptyString
  | String.String c s' =>
      if slug_char c then String.String c (strip_disallowed s')
      else strip_disallowed s'
  end.

Definition createBranchSlug (branch : string) : string :=
  let slug := replace_char "/" "-" branch in
  let slug := replace_char "_" "-" slug in
  strip_disallowed slug.

(* ------------------------------------------------------------------ *)
(** ** [parentDir] *)

(** [strings.TrimRight(s, "/")]. *)
Fixpoint trim_right_slash (s : string) : string :=
  match s with
  | String.EmptyString => String.EmptyString
  | String.String c s' =>
      let r := trim_right_slash s' in
      if String.eqb r "" && (if ascii_dec c "/" then true else false)
      then String.EmptyString else String.String c r
  end.

(** [strings.LastIndex(s, "/")]; [None] stands for Go's [-1]. *)
Fixpoint last_index_slash (s : string) : option nat :=
  match s with
  | String.EmptyString => None
  | String.String c s' =>
      match last_index_slash s' with
      | Some i => Some (S i)
      | None => if ascii_dec c "/" then Some 0 else None
      end
  end.

Definition parentDir (path : string) : string :=
  if String.eqb path "/" then "/" else
  let path := trim_right_slash path in
  match last_index_slash path with
  | None | Some 0 => "/"                   (* idx <= 0 *)
  | Some idx => String.substring 0 idx path  (* path[:idx] *)
  end.

(* ------------------------------------------------------------------ *)
(** ** The go-git repository as the code reads it *)

(** Objects of the store: commits with their parent hashes, annotated tag
    objects with the hash they point at, and anything else. *)
Inductive Obj :=
| CommitObj (parents : list string)
| TagObj (target : string)
| OtherObj.

(** A reference name: [refs/heads/<short>] or anything else. *)
Inductive RefName :=
| Branch (short : string)
| NonBranch (name : string).

Definition IsBranch (n : RefName) : bool :=
  match n with Branch _ => true | NonBranch _ => false end.

Definition Short (n : RefName) : string :=
  match n with Branch s => s | NonBranch s => s end.

Inductive StatusCode :=
| Unmodified | Untracked | Modified | Added | Deleted | Renamed | Copied
| UpdatedButUnmerged.

Definition StatusCode_eqb (a b : StatusCode) : bool :=
  match a, b with
  | Unmodified, Unmodified | Untracked, Untracked | Modified, Modified
  | Added, Added | Deleted, Deleted | Renamed, Renamed | Copied, Copied
  | UpdatedButUnmerged, UpdatedButUnmerged => true
  | _, _ => false
  end.

Record FileStatus := mkFileStatus { Staging : StatusCode; Worktree : StatusCode }.

Record Repository := mkRepository {
  objects : gmap string Obj;
  (** [repo.Head()]: the name and hash of HEAD; [None] when it cannot be
      resolved (no commit yet). *)
  head : option (RefName * string);
  (** [repo.Tags()]: the tag references in enumeration order, as
      (short name, hash the reference stores); [None] on error. *)
  tags : option (list (string * string));
  (** [repo.Reference("refs/remotes/origin/HEAD", true)]: the short name
      of the resolved reference; [None] on error. *)
  origin_head : option string;
  (** [repo.References()]: the names of all references; [None] on error. *)
  references : option (list RefName);
  (** [repo.Worktree()]: [None] when the repository has no work tree
      (bare); otherwise the result of [worktree.Status()], [None] on error. *)
  worktree : option (option (list FileStatus))
}.

(** [object.NewCommitPreorderIter], as [repo.Log] uses it by default: a
    stack of parent lists; a popped hash already seen is skipped, otherwise
    it is loaded (an error when it is not a commit), yielded, marked seen,
    and the list of its parents is pushed.  The result is the sequence of
    yielded hashes and whether iteration ended in an error rather than at
    [io.EOF].  [fuel] bounds the number of steps; [log_fuel] below exceeds
    the steps any walk of the store takes. *)
Fixpoint preorder (objs : gmap string Obj) (fuel : nat)
    (stack : list (list string)) (seen : gset string) : list string * bool :=
  match fuel with
  | O => ([], false)
  | S f =>
      match stack with
      | [] => ([], false)
      | [] :: rest => preorder objs f rest seen
      | (h :: hs) :: rest =>
          if decide (h ∈ seen) then preorder objs f (hs :: rest) seen
          else match objs !! h with
               | Some (CommitObj ps) =>
                   let '(cs, e) := preorder objs f (ps :: hs :: rest) ({[h]} ∪ seen) in
                   (h :: cs, e)
               | _ => ([], true)
               end
      end
  end.

Definition obj_weight (o : Obj) : nat :=
  match o with CommitObj ps => S (length ps) | _ => 1 end.

Definition log_fuel (objs : gmap string Obj) : nat :=
  3 + map_fold (fun _ o acc => obj_weight o + acc) 0 objs.

(** [repo.Log(&git.LogOptions{From: hash})]: [r.CommitObject(hash)] must
    succeed, then the pre-order walk starts at that commit. *)
Definition repo_Log (repo : Repository) (hash : string) : option (list string * bool) :=
  match objects repo !! hash with
  | Some (CommitObj _) => Some (preorder (objects repo) (log_fuel (objects repo)) [[hash]] ∅)
  | _ => None
  end.

(* ------------------------------------------------------------------ *)
(** ** [getGitDescribe] *)

(** [tagMap[ref.Hash()] = ref.Name().Short()] over the tag references in
    enumeration order: a later reference to the same hash overwrites. *)
Definition build_tagMap (refs : list (string * string)) : gmap string string :=
  foldl (fun m '(name, h) => <[h := name]> m) ∅ refs.

(** The [commitIter.ForEach] callback: stop at the first commit that is a
    key of the map, otherwise count it. *)
Fixpoint find_tag (tagMap : gmap string string) (commits : list string)
    (distance : nat) : string * nat :=
  match commits with
  | [] => ("", distance)
  | c :: cs =>
      match tagMap !! c with
      | Some tagName => (tagName, distance)
      | None => find_tag tagMap cs (S distance)
      end
  end.

Definition shortHash (h : string) : string := String.substring 0 7 h.

Definition getGitDescribe (repo : Repository) (hash : string) : string * string :=
  match tags repo with
  | None => ("", "")
  | Some tagRefs =>
      let tagMap := build_tagMap tagRefs in
      match tagMap !! hash with
      | Some tagName => (tagName, tagName)
      | None =>
          match repo_Log repo hash with
          | None => ("", "")
          | Some (commits, _) =>
              (* the error ending [ForEach] is not inspected *)
              let '(foundTag, distance) := find_tag tagMap commits 0 in
              if negb (String.eqb foundTag "") then
                (foundTag +:+ "-" +:+ itoa distance +:+ "-g" +:+ shortHash hash, foundTag)
              else ("", "")
          end
      end
  end.

(* ------------------------------------------------------------------ *)
(** ** [hasUncommittedChanges] *)

Definition changed (c : StatusCode) : bool :=
  negb (StatusCode_eqb c Untracked) && negb (StatusCode_eqb c Unmodified).

Fixpoint any_changed (status : list FileStatus) : bool :=
  match status with
  | [] => false
  | fs :: rest =>
      if changed (Staging fs) then true
      else if changed (Worktree fs) then true
      else any_changed rest
  end.

Definition hasUncommittedChanges (repo : Repository) : bool :=
  match worktree repo with
  | None => false
  | Some None => false
  | Some (Some status) => any_changed status
  end.

(* ------------------------------------------------------------------ *)
(** ** [detectDefaultBranch] *)

Definition detectDefaultBranch (repo : Repository) : string :=
  match origin_head repo with
  | Some refName =>
      if String.prefix "origin/" refName
      then String.substring 7 (String.length refName - 7) refName
      else refName
  | None =>
      let existing := match references repo with
                      | Some refs => map Short (filter (fun r => IsBranch r = true) refs)
                      | None => []
                      end in
      if bool_decide ("main" ∈ existing) then "main"
      else if bool_decide ("master" ∈ existing) then "master"
      else "main"
  end.

(* ------------------------------------------------------------------ *)
(** ** [GetVersionInfo] *)

Record Info := mkInfo {
  Version : string;
  GitCommit : string;
  GitCommitShort : string;
  GitBranch : string;
  GitBranchSlug : string;
  GitDescribe : string;
  LatestTag : string;
  BuildTime : string;
  IsDirty : bool;
  DefaultBranch : string
}.

Inductive FileKind := DirFile | RegularFile | OtherFile.

(** The file system and the standard library calls the code makes. *)
Record Env := mkEnv {
  (** [filepath.Abs]; [None] on error. *)
  Abs : string -> option string;
  (** [os.Stat]: the kind of the file; [None] on error. *)
  Stat : string -> option FileKind;
  (** [git.PlainOpen]; [None] on error. *)
  PlainOpen : string -> option Repository
}.

Inductive VersionError :=
| ErrAbsPath
| ErrNoGit (origPath : string)
| ErrOpen (gitRoot : string)
| ErrHead.

Definition git_marker (env : Env) (absPath : string) : bool :=
  match Stat env (absPath +:+ "/.git") with
  | Some DirFile | Some RegularFile => true
  | _ => false
  end.

(** The upward search for [.git]; [None] is the "no .git found" error.
    [path_measure] strictly decreases at every step of the loop (see
    [parentDir_measure]), so the fuel below never runs out. *)
Fixpoint find_git_root (env : Env) (fuel : nat) (absPath : string) : option string :=
  match fuel with
  | O => None
  | S f =>
      if git_marker env absPath then Some absPath else
      let parent := parentDir absPath in
      if String.eqb parent absPath then None
      else find_git_root env f parent
  end.

Definition path_measure (p : string) : nat :=
  if String.eqb p "/" then 0 else S (String.length p).

Definition GetVersionInfo (env : Env) (now_build now_dirty : Time)
    (repoPath defaultBranch : string) : VersionError + Info :=
  match Abs env repoPath with
  | None => inl ErrAbsPath
  | Some absPath =>
  match find_git_root env (S (path_measure absPath)) absPath with
  | None => inl (ErrNoGit absPath)
  | Some gitRoot =>
  match PlainOpen env gitRoot with
  | None => inl (ErrOpen gitRoot)
  | Some repo =>
  let buildTime := format_build now_build in
  let defaultBranch :=
    if String.eqb defaultBranch "" then detectDefaultBranch repo else defaultBranch in
  match head repo with
  | None => inl ErrHead
  | Some (name, hash) =>
  let gitCommit := hash in
  let gitCommitShort := shortHash hash in
  let gitBranch := if IsBranch name then Short name else "HEAD" in
  let gitBranchSlug := createBranchSlug gitBranch in
  let '(gitDescribe, latestTag) := getGitDescribe repo hash in
  let isDirty := hasUncommittedChanges repo in
  let version :=
    if String.eqb gitBranch defaultBranch then
      if negb (String.eqb gitDescribe "") then gitDescribe
      else gitBranchSlug +:+ "-g" +:+ gitCommitShort
    else gitBranchSlug +:+ "-g" +:+ gitCommitShort in
  let version :=
    if isDirty then version +:+ "-" +:+ format_stamp now_dirty else version in
  inr {| Version := version; GitCommit := gitCommit;
         GitCommitShort := gitCommitShort; GitBranch := gitBranch;
         GitBranchSlug := gitBranchSlug; GitDescribe := gitDescribe;
         LatestTag := latestTag; BuildTime := buildTime; IsDirty := isDirty;
         DefaultBranch := defaultBranch |}
  end end end end.

(** The repository [GetVersionInfo] opens for [repoPath]: the first part
    of the function, up to [git.PlainOpen]. *)
Definition opened_repo (env : Env) (repoPath : string) : option Repository :=
  match Abs env repoPath with
  | None => None
  | Some absPath =>
      match find_git_root env (S (path_measure absPath)) absPath with
      | None => None
      | Some gitRoot => PlainOpen env gitRoot
      end
  end.

(* ------------------------------------------------------------------ *)
(** ** [Info.String] and [Info.DetailedString] *)

Definition nl : string := String.String (ascii_of_nat 10) "".

Definition String_ (i : Info) : string := Version i.

Definition DetailedString (i : Info) : string :=
  let dirtyStr := if IsDirty i then "dirty" else "clean" in
  let tagStr := if String.eqb (LatestTag i) "" then "(none)" else LatestTag i in
  "Version:        " +:+ Version i +:+ nl +:+
  "Commit:         " +:+ GitCommit i +:+ nl +:+
  "Branch:         " +:+ GitBranch i +:+ nl +:+
  "Default Branch: " +:+ DefaultBranch i +:+ nl +:+
  "Latest Tag:     " +:+ tagStr +:+ nl +:+
  "Build Time:     " +:+ BuildTime i +:+ nl +:+
  "Dirty:          " +:+ dirtyStr.

(** [strings.Split(s, "\n")]. *)
Fixpoint split_lines (s : string) : list string :=
  match s with
  | String.EmptyString => [""]
  | String.String c s' =>
      let rest := split_lines s' in
      if Ascii.eqb c (ascii_of_nat 10) then "" :: rest
      else match rest with
           | [] => [String.String c ""]
           | l :: ls => String.String c l :: ls
           end
  end.

(* ------------------------------------------------------------------ *)
(** ** [main.go] *)

(** The text [printHelp] writes with [fmt.Println], one line per call. *)
Definition help_lines : list string := [
  "gitversion - Git-based version string generator"; "";
  "USAGE:"; "  gitversion [options]"; "  gitversion help"; "";
  "OPTIONS:";
  "  -detailed              Show detailed version information";
  "  -short                 Show only the version string (default)";
  "  -path <path>           Path to Git repository (default: .)";
  "  -default-branch <name> Default branch name (auto-detected if not set)"; "";
  "VERSION LOGIC:";
  "  - Default branch with tags:    Uses 'git describe' format (tag or tag-N-ghash)";
  "  - Default branch without tags: Uses '<branch-slug>-ghash'";
  "  - Other branches:              Always uses '<branch-slug>-ghash'";
  "  - Dirty tree:                  Appends '-YYYYMMDDHHMMSS' timestamp"; "";
  "EXAMPLES:";
  "  gitversion                         # Print version";
  "  gitversion -detailed               # Print detailed info";
  "  gitversion -path /repo             # Version for specific repo";
  "  gitversion -default-branch master  # Specify default branch"].

Definition printHelp : string := foldr (fun l acc => l +:+ nl +:+ acc) "" help_lines.

(** The values [flag.Parse] leaves in the four flags. *)
Record Flags := mkFlags {
  detailedFlag : bool; shortFlag : bool; pathFlag : string; defaultBranchFlag : string
}.

(** [flag.Parse] on [os.Args[1:]] with [flag.ExitOnError]: the flags, or
    [-h]/[-help] ([flag.ErrHelp]), or a malformed command line. *)
Inductive ParseResult := Parsed (f : Flags) | ParseHelp | ParseError.

(** What a run of [main] leaves behind: the exit code, what it wrote to
    standard output, and the error it reported as ["Error: %v"] on standard
    error (the flag package's own messages on standard error are not
    modelled). *)
Record Outcome := mkOutcome {
  exit_code : nat; stdout : string; reported_error : option VersionError
}.

Definition main_go (args : list string) (parse : list string -> ParseResult)
    (env : Env) (tb td : Time) : Outcome :=
  if Nat.ltb 1 (length args) && String.eqb (nth 1 args "") "help" then
    mkOutcome 0 printHelp None
  else
  match parse (tail args) with
  | ParseHelp => mkOutcome 0 printHelp None     (* Usage, then os.Exit(0) *)
  | ParseError => mkOutcome 2 printHelp None    (* Usage, then os.Exit(2) *)
  | Parsed fl =>
      match GetVersionInfo env tb td (pathFlag fl) (defaultBranchFlag fl) with
      | inl e => mkOutcome 1 "" (Some e)
      | inr info =>
          let out := if shortFlag fl then Version info
                     else if detailedFlag fl then DetailedString info
                     else Version info in
          mkOutcome 0 (out +:+ nl) None
      end
  end.

(* ------------------------------------------------------------------ *)
(** ** Absolute paths built from components *)

(** ["/c1/c2/.../cn"], and ["/"] for no component. *)
Fixpoint join_abs (cs : list string) : string :=
  match cs with [] => "" | c :: cs' => "/" +:+ c +:+ join_abs cs' end.

Definition render_path (cs : list string) : string :=
  match cs with [] => "/" | _ => join_abs cs end.

Definition no_slash (s : string) : bool := all_chars (fun c => negb (Ascii.eqb c "/")) s.

(** Strings without a line break. *)
Definition no_nl (s : string) : bool := all_chars (fun c => negb (Ascii.eqb c (ascii_of_nat 10))) s.

(** The decimal digits of a string, in order. *)
Fixpoint keep_digits (s : string) : string :=
  match s with
  | String.EmptyString => String.EmptyString
  | String.String c s' => if is_digit c then String.String c (keep_digits s') else keep_digits s'
  end.

(** A command line parser returning fixed flags. *)
Definition parse_fixed (fl : Flags) : list string -> ParseResult := fun _ => Parsed fl.

(* ------------------------------------------------------------------ *)
(** ** Spec-side definitions *)

(** "alphanumeric" as in the class [A-Za-z0-9]. *)
Definition is_alnum_ascii (c : ascii) : bool :=
  let n := nat_of_ascii c in
  (Nat.leb (nat_of_ascii "a") n && Nat.leb n (nat_of_ascii "z")) ||
  (Nat.leb (nat_of_ascii "A") n && Nat.leb n (nat_of_ascii "Z")) ||
  (Nat.leb (nat_of_ascii "0") n && Nat.leb n (nat_of_ascii "9")).

Definition slug_alphabet (c : ascii) : bool := is_alnum_ascii c || Ascii.eqb c "-".

(** The slug as the spec words it: every ['/'] and ['_'] becomes ['-'],
    then every character outside [A-Za-z0-9-] is deleted. *)
Definition spec_slug (branch : string) : string :=
  String.string_of_list_ascii
    (List.filter slug_alphabet
       (List.map (fun c => if Ascii.eqb c "/" || Ascii.eqb c "_" then "-"%char else c)
          (String.list_ascii_of_string branch))).

(** "A tag is reachable from HEAD": some tag reference designates, directly
    or through an annotated tag object, a commit that is HEAD or an ancestor
    of HEAD. *)
Inductive ancestor (objs : gmap string Obj) : string -> string -> Prop :=
| ancestor_refl h ps : objs !! h = Some (CommitObj ps) -> ancestor objs h h
| ancestor_parent h ps p a :
    objs !! h = Some (CommitObj ps) -> p ∈ ps -> ancestor objs p a -> ancestor objs h a.

Definition tag_commit (objs : gmap string Obj) (target : string) : option string :=
  match objs !! target with
  | Some (CommitObj _) => Some target
  | Some (TagObj c) => Some c
  | _ => None
  end.

Definition tag_reachable (repo : Repository) (hash : string) : Prop :=
  exists refs name target c,
    tags repo = Some refs /\ (name, target) ∈ refs /\
    tag_commit (objects repo) target = Some c /\ ancestor (objects repo) hash c.

(* ------------------------------------------------------------------ *)
(** ** Concrete repositories *)

Definition h0 := "0e1f2a3b4c5d6e7f8091a2b3c4d5e6f708192a30".
Definition h1 := "1d2c3b4a5f6e7d8c9b0a1f2e3d4c5b6a79881a21".
Definition h2 := "2c3b4a5f6e7d8c9b0a1f2e3d4c5b6a7988a1b212".
Definition h3 := "3b4a5f6e7d8c9b0a1f2e3d4c5b6a7988a1b2c303".
Definition h4 := "4a5f6e7d8c9b0a1f2e3d4c5b6a7988a1b2c3d404".
Definition h5 := "5f6e7d8c9b0a1f2e3d4c5b6a7988a1b2c3d4e505".
(** The hash of an annotated tag object. *)
Definition ht := "9a8b7c6d5e4f30291a0b9c8d7e6f5a4b3c2d1e0f".

(** A linear history h0 <- h1 <- ... <- h5. *)
Definition chain_objs : gmap string Obj :=
  <[h5 := CommitObj [h4]]> (<[h4 := CommitObj [h3]]> (<[h3 := CommitObj [h2]]>
  (<[h2 := CommitObj [h1]]> (<[h1 := CommitObj [h0]]> (<[h0 := CommitObj []]> ∅))))).

Definition clean_tree : option (option (list FileStatus)) := Some (Some [mkFileStatus Unmodified Untracked]).
Definition dirty_tree : option (option (list FileStatus)) := Some (Some [mkFileStatus Unmodified Modified]).

Definition chain_repo (br : string) (hd : string) (tagRefs : list (string * string))
    (wt : option (option (list FileStatus))) : Repository :=
  mkRepository chain_objs (Some (Branch br, hd)) (Some tagRefs) None
    (Some [Branch "main"; Branch "feature/x"; NonBranch "refs/tags/v1.0.0"]) wt.

(** A file system with one repository at [root]. *)
Definition env_at (root : string) (repo : Repository) : Env :=
  mkEnv (fun p => Some p)
    (fun p => if String.eqb p (root +:+ "/.git") then Some DirFile else None)
    (fun p => if String.eqb p root then Some repo else None).

Definition t_w : Time := mkTime 2026 10 16 9 30 5.

Definition info_of (r : VersionError + Info) : Info :=
  match r with
  | inr i => i
  | inl _ => mkInfo "" "" "" "" "" "" "" "" false ""
  end.

(** HEAD five commits past the lightweight tag [v1.0.0] on [main], with a
    modified tracked file. *)
Definition env_main_dirty : Env :=
  env_at "/repo" (chain_repo "main" h5 [("v1.0.0", h0)] dirty_tree).

Definition info_main_dirty : Info :=
  Eval vm_compute in info_of (GetVersionInfo env_main_dirty t_w t_w "/repo" "").

(** HEAD exactly at the tag [v1.0.0], but on the branch [feature/x]. *)
Definition env_feature_tagged : Env :=
  env_at "/repo" (chain_repo "feature/x" h0 [("v1.0.0", h0)] clean_tree).

Definition info_feature_tagged : Info :=
  Eval vm_compute in info_of (GetVersionInfo env_feature_tagged t_w t_w "/repo/src" "").

(** HEAD exactly at the lightweight tag [v1.0.0] on [main], clean. *)
Definition repo_main_exact : Repository := chain_repo "main" h0 [("v1.0.0", h0)] clean_tree.
Definition env_main_exact : Env := env_at "/repo" repo_main_exact.
Definition info_main_exact : Info :=
  Eval vm_compute in info_of (GetVersionInfo env_main_exact t_w t_w "/repo" "").

(** Two tags on the commit h0, seen from two different HEADs. *)
Definition two_tags : list (string * string) := [("v1.0.0", h0); ("v1.0.0-rc1", h0)].
Definition repo_two_tags_a : Repository := chain_repo "main" h5 two_tags clean_tree.
Definition repo_two_tags_b : Repository := chain_repo "feature/x" h3 two_tags dirty_tree.

(** The distance as the claim words it: the number of commits strictly
    between HEAD (the first commit of the walk) and the tagged commit. *)
Definition strictly_between (walk_before_tag : list string) : nat :=
  match walk_before_tag with [] => 0 | _ :: between => length between end.

(** HEAD one and five commits past the lightweight tag [v1.0.0] on [main]. *)
Definition repo_one_past : Repository := chain_repo "main" h1 [("v1.0.0", h0)] clean_tree.
Definition repo_five_past : Repository := chain_repo "main" h5 [("v1.0.0", h0)] clean_tree.

Definition is_lower_hex (c : ascii) : bool :=
  is_digit c || (Nat.leb 97 (nat_of_ascii c) && Nat.leb (nat_of_ascii c) 102).

(** HEAD at the commit h0, which carries the annotated tag [v1.0.0]: the
    reference [refs/tags/v1.0.0] stores the hash [ht] of the tag object,
    which points at h0. *)
Definition annotated_objs : gmap string Obj :=
  <[ht := TagObj h0]> (<[h0 := CommitObj []]> ∅).
Definition repo_annotated : Repository :=
  mkRepository annotated_objs (Some (Branch "main", h0)) (Some [("v1.0.0", ht)]) None
    (Some [Branch "main"; NonBranch "refs/tags/v1.0.0"]) clean_tree.
Definition env_annotated : Env := env_at "/repo" repo_annotated.
Definition info_annotated : Info :=
  Eval vm_compute in info_of (GetVersionInfo env_annotated t_w t_w "/repo" "").

(** The same repositories with their work-tree access replaced. *)
Definition set_worktree (w : option (option (list FileStatus))) (r : Repository) : Repository :=
  mkRepository (objects r) (head r) (tags r) (origin_head r) (references r) w.

Definition map_repos (f : Repository -> Repository) (env : Env) : Env :=
  mkEnv (Abs env) (Stat env) (fun p => option_map f (PlainOpen env p)).

(** A repository at [/repo] with a second repository (a submodule, whose
    [.git] is a file) at [/repo/sub]. *)
Definition repo_sub : Repository := chain_repo "main" h2 [] clean_tree.
Definition env_nested : Env :=
  mkEnv (fun p => Some p)
    (fun p => if String.eqb p "/repo/.git" then Some DirFile
              else if String.eqb p "/repo/sub/.git" then Some RegularFile else None)
    (fun p => if String.eqb p "/repo" then Some repo_five_past
              else if String.eqb p "/repo/sub" then Some repo_sub else None).

(** A detached HEAD at the tagged commit h0. *)
Definition repo_detached : Repository :=
  mkRepository chain_objs (Some (NonBranch "HEAD", h0)) (Some [("v1.0.0", h0)]) None
    (Some [Branch "main"]) clean_tree.
Definition env_detached : Env := env_at "/repo" repo_detached.

(** A repository without any tag, HEAD on [main], dirty. *)
Definition repo_untagged : Repository := chain_repo "main" h3 [] dirty_tree.
Definition env_untagged : Env := env_at "/repo" repo_untagged.

(** A repository with no commit yet: HEAD cannot be resolved. *)
Definition repo_unborn : Repository :=
  mkRepository ∅ None (Some []) None (Some []) (Some (Some [])).
Definition env_unborn : Env := env_at "/repo" repo_unborn.

(** No [origin/HEAD]; a [master] branch and a tag whose short name is
    [main]. *)
Definition repo_master : Repository :=
  mkRepository chain_objs (Some (Branch "master", h5)) (Some []) None
    (Some [Branch "master"; NonBranch "main"]) clean_tree.

(** [origin/HEAD] points at [origin/develop]. *)
Definition repo_origin_develop : Repository :=
  mkRepository chain_objs (Some (Branch "develop", h5)) (Some []) (Some "origin/develop")
    (Some [Branch "main"; Branch "develop"]) clean_tree.

(* ------------------------------------------------------------------ *)
(** ** Basic facts *)

Lemma length_app (s t : string) :
  String.length (s +:+ t) = String.length s + String.length t.
Proof. induction s as [|c s IH]; simpl; [reflexivity | rewrite IH; reflexivity]. Qed.

Lemma app_cons (c : ascii) (s t : string) :
  String.String c s +:+ t = String.String c (s +:+ t).
Proof. reflexivity. Qed.

Lemma app_nil_l (t : string) : "" +:+ t = t.
Proof. reflexivity. Qed.

Lemma app_empty_r (s : string) : s +:+ "" = s.
Proof. induction s as [|c s IH]; [reflexivity | rewrite app_cons, IH; reflexivity]. Qed.

Lemma all_chars_app (p : ascii -> bool) (s t : string) :
  all_chars p (s +:+ t) = all_chars p s && all_chars p t.
Proof.
  induction s as [|c s IH]; simpl; [reflexivity|].
  rewrite IH. apply andb_assoc.
Qed.

Lemma is_digit_utod (d : nat) : d < 10 -> is_digit (utod d) = true.
Proof.
  intros Hd.
  do 10 (destruct d as [|d]; [reflexivity|]). lia.
Qed.

Lemma appendInt_2_eq (x : nat) : x < 100 ->
  appendInt x 2 = String.String (utod (x / 10)) (String.String (utod (x mod 10)) "").
Proof.
  intros Hx. unfold appendInt. rewrite (proj2 (Nat.ltb_lt x 100) Hx). reflexivity.
Qed.

Lemma appendInt_4_eq (x : nat) : x < 10 * 1000 ->
  appendInt x 4 =
  String.String (utod (x / 1000)) (String.String (utod (x / 100 mod 10))
    (String.String (utod (x / 10 mod 10)) (String.String (utod (x mod 10)) ""))).
Proof.
  intros Hx. unfold appendInt. rewrite (proj2 (Nat.ltb_lt x 10000) Hx). reflexivity.
Qed.

Lemma appendInt_2 (x : nat) : x < 100 ->
  String.length (appendInt x 2) = 2 /\ all_chars is_digit (appendInt x 2) = true.
Proof.
  intros Hx. rewrite (appendInt_2_eq x Hx). split; [reflexivity|].
  cbn [all_chars]. rewrite !is_digit_utod; [reflexivity | apply Nat.mod_upper_bound; lia |].
  apply Nat.Div0.div_lt_upper_bound; lia.
Qed.

Lemma appendInt_4 (x : nat) : x < 10 * 1000 ->
  String.length (appendInt x 4) = 4 /\ all_chars is_digit (appendInt x 4) = true.
Proof.
  intros Hx. rewrite (appendInt_4_eq x Hx). split; [reflexivity|].
  cbn [all_chars]. rewrite !is_digit_utod; try reflexivity;
    first [apply Nat.mod_upper_bound; lia | apply Nat.Div0.div_lt_upper_bound; lia].
Qed.

(** Under [valid_time], [Format("20060102150405")] gives 14 digits. *)
Lemma format_stamp_14 (t : Time) : valid_time t ->
  String.length (format_stamp t) = 14 /\ all_chars is_digit (format_stamp t) = true.
Proof.
  intros (Hy & Hm & Hd & Hh & Hmi & Hs).
  destruct (appendInt_4 (year t) Hy) as [Ly Dy].
  destruct (appendInt_2 (month t) ltac:(lia)) as [Lm Dm].
  destruct (appendInt_2 (day t) ltac:(lia)) as [Ld Dd].
  destruct (appendInt_2 (hour t) ltac:(lia)) as [Lh Dh].
  destruct (appendInt_2 (minute t) ltac:(lia)) as [Lmi Dmi].
  destruct (appendInt_2 (second t) ltac:(lia)) as [Ls Ds].
  unfold format_stamp. rewrite !length_app, !all_chars_app.
  rewrite Ly, Lm, Ld, Lh, Lmi, Ls, Dy, Dm, Dd, Dh, Dmi, Ds. split; reflexivity.
Qed.

(* ------------------------------------------------------------------ *)
(** ** Anatomy of a successful [GetVersionInfo] *)

Lemma GetVersionInfo_ok (env : Env) (tb td : Time) (p d : string) (info : Info) :
  GetVersionInfo env tb td p d = inr info ->
  exists absPath gitRoot repo name hash,
    Abs env p = Some absPath /\
    find_git_root env (S (path_measure absPath)) absPath = Some gitRoot /\
    PlainOpen env gitRoot = Some repo /\
    head repo = Some (name, hash) /\
    DefaultBranch info = (if String.eqb d "" then detectDefaultBranch repo else d) /\
    GitCommit info = hash /\
    GitCommitShort info = shortHash hash /\
    GitBranch info = (if IsBranch name then Short name else "HEAD") /\
    GitBranchSlug info = createBranchSlug (GitBranch info) /\
    (GitDescribe info, LatestTag info) = getGitDescribe repo hash /\
    IsDirty info = hasUncommittedChanges repo /\
    BuildTime info = format_build tb /\
    Version info =
      (let v := if String.eqb (GitBranch info) (DefaultBranch info) then
                  if negb (String.eqb (GitDescribe info) "") then GitDescribe info
                  else GitBranchSlug info +:+ "-g" +:+ GitCommitShort info
                else GitBranchSlug info +:+ "-g" +:+ GitCommitShort info in
       if IsDirty info then v +:+ "-" +:+ format_stamp td else v).
Proof.
  unfold GetVersionInfo. intros H.
  destruct (Abs env p) as [absPath|] eqn:Ha; [|discriminate].
  destruct (find_git_root env _ absPath) as [gitRoot|] eqn:Hf; [|discriminate].
  destruct (PlainOpen env gitRoot) as [repo|] eqn:Ho; [|discriminate].
  destruct (head repo) as [[name hash]|] eqn:Hh; [|discriminate].
  destruct (getGitDescribe repo hash) as [gd lt] eqn:Hd.
  injection H as <-.
  exists absPath, gitRoot, repo, name, hash. cbn. rewrite Hd.
  repeat split; assumption || reflexivity.
Qed.

(* ------------------------------------------------------------------ *)
(** ** The version composer *)

(** C1: for every successful resolution, the version follows the decision
    table: on the default branch it is [describe] when [describe] is
    non-empty and ["{branchSlug}-g{commitShort}"] otherwise (and off the
    default branch always the latter); with a dirty tree the base version
    is followed by one ['-'] and the 14-digit UTC timestamp
    [YYYYMMDDHHMMSS] of the clock reading, with a clean tree it is the base
    version itself. *)
Theorem version_decision_table (env : Env) (tb td : Time) (p d : string) (info : Info) :
  valid_time td ->
  GetVersionInfo env tb td p d = inr info ->
  let base :=
    if String.eqb (GitBranch info) (DefaultBranch info) then
      if String.eqb (GitDescribe info) "" then GitBranchSlug info +:+ "-g" +:+ GitCommitShort info
      else GitDescribe info
    else GitBranchSlug info +:+ "-g" +:+ GitCommitShort info in
  (IsDirty info = false -> Version info = base) /\
  (IsDirty info = true ->
     exists ts, ts = format_stamp td /\ String.length ts = 14 /\
                all_chars is_digit ts = true /\ Version info = base +:+ "-" +:+ ts).
Proof.
  intros Ht H base.
  destruct (GetVersionInfo_ok env tb td p d info H)
    as (absPath & gitRoot & repo & name & hash & _ & _ & _ & _ & _ & _ & _ & _ & _ & _ & _ & _ & Hv).
  assert (Hb : (if String.eqb (GitBranch info) (DefaultBranch info) then
                  if negb (String.eqb (GitDescribe info) "") then GitDescribe info
                  else GitBranchSlug info +:+ "-g" +:+ GitCommitShort info
                else GitBranchSlug info +:+ "-g" +:+ GitCommitShort info) = base).
  { unfold base. destruct (String.eqb (GitBranch info) (DefaultBranch info)); [|reflexivity].
    destruct (String.eqb (GitDescribe info) ""); reflexivity. }
  rewrite Hb in Hv. split.
  - intros Hc. rewrite Hv, Hc. reflexivity.
  - intros Hc. destruct (format_stamp_14 td Ht) as [Hl Hd].
    exists (format_stamp td). rewrite Hv, Hc. repeat split; assumption.
Qed.

Lemma version_decision_table_witness :
  valid_time t_w /\
  GetVersionInfo env_main_dirty t_w t_w "/repo" "" = inr info_main_dirty /\
  Version info_main_dirty = "v1.0.0-5-g5f6e7d8-20261016093005" /\
  exists ts, ts = format_stamp t_w /\ String.length ts = 14 /\
    all_chars is_digit ts = true /\ Version info_main_dirty = "v1.0.0-5-g5f6e7d8" +:+ "-" +:+ ts.
Proof.
  assert (Ht : valid_time t_w) by (unfold valid_time; cbn; lia).
  assert (Hr : GetVersionInfo env_main_dirty t_w t_w "/repo" "" = inr info_main_dirty)
    by (vm_compute; reflexivity).
  split; [exact Ht|]. split; [exact Hr|]. split; [vm_compute; reflexivity|].
  exact (proj2 (version_decision_table env_main_dirty t_w t_w "/repo" "" info_main_dirty Ht Hr)
           (eq_refl true)).
Defined.

(** C3: for every successful resolution in which the current branch is
    not the default branch, the version is ["{branchSlug}-g{commitShort}"]
    (followed by ['-'] and the timestamp when the tree is dirty), whatever
    the tags and the describe result. *)
Theorem off_default_branch_ignores_tags (env : Env) (tb td : Time) (p d : string) (info : Info) :
  GetVersionInfo env tb td p d = inr info ->
  GitBranch info <> DefaultBranch info ->
  Version info =
    (GitBranchSlug info +:+ "-g" +:+ GitCommitShort info) +:+
    (if IsDirty info then "-" +:+ format_stamp td else "").
Proof.
  intros H Hne.
  destruct (GetVersionInfo_ok env tb td p d info H)
    as (absPath & gitRoot & repo & name & hash & _ & _ & _ & _ & _ & _ & _ & _ & _ & _ & _ & _ & Hv).
  rewrite Hv. apply String.eqb_neq in Hne. rewrite Hne.
  destruct (IsDirty info).
  - reflexivity.
  - symmetry. apply app_empty_r.
Qed.

Lemma off_default_branch_ignores_tags_witness :
  GetVersionInfo env_feature_tagged t_w t_w "/repo/src" "" = inr info_feature_tagged /\
  GitBranch info_feature_tagged <> DefaultBranch info_feature_tagged /\
  GitDescribe info_feature_tagged = "v1.0.0" /\
  Version info_feature_tagged = "feature-x-g0e1f2a3" +:+ "".
Proof.
  assert (Hr : GetVersionInfo env_feature_tagged t_w t_w "/repo/src" "" = inr info_feature_tagged)
    by (vm_compute; reflexivity).
  assert (Hne : GitBranch info_feature_tagged <> DefaultBranch info_feature_tagged)
    by (vm_compute; discriminate).
  split; [exact Hr|]. split; [exact Hne|]. split; [vm_compute; reflexivity|].
  exact (off_default_branch_ignores_tags env_feature_tagged t_w t_w "/repo/src" ""
           info_feature_tagged Hr Hne).
Defined.

(* ------------------------------------------------------------------ *)
(** ** The branch slug *)

Lemma slug_alphabet_slug_char (c : ascii) : slug_alphabet c = slug_char c.
Proof.
  unfold slug_alphabet, is_alnum_ascii, slug_char.
  destruct (Ascii.eqb_spec c "-") as [->|Hne]; [reflexivity|].
  rewrite orb_false_r.
  replace (Nat.eqb (nat_of_ascii c) 45) with false; [rewrite orb_false_r; reflexivity|].
  symmetry. apply Nat.eqb_neq. intros E. apply Hne.
  rewrite <- (ascii_nat_embedding c), E. reflexivity.
Qed.

Lemma createBranchSlug_cons (c : ascii) (s : string) :
  createBranchSlug (String.String c s) =
  (let c' := if ascii_dec (if ascii_dec c "/" then "-"%char else c) "_" then "-"%char
             else (if ascii_dec c "/" then "-"%char else c) in
   if slug_char c' then String.String c' (createBranchSlug s) else createBranchSlug s).
Proof. reflexivity. Qed.

Lemma spec_slug_cons (c : ascii) (s : string) :
  spec_slug (String.String c s) =
  (let c' := if Ascii.eqb c "/" || Ascii.eqb c "_" then "-"%char else c in
   if slug_alphabet c' then String.String c' (spec_slug s) else spec_slug s).
Proof.
  unfold spec_slug. cbn [String.list_ascii_of_string List.map List.filter].
  destruct (slug_alphabet _); reflexivity.
Qed.

Lemma strip_disallowed_alphabet (s : string) :
  all_chars slug_alphabet (strip_disallowed s) = true.
Proof.
  induction s as [|c s IH]; [reflexivity|].
  cbn [strip_disallowed]. destruct (slug_char c) eqn:Hc; [|exact IH].
  cbn [all_chars]. rewrite slug_alphabet_slug_char, Hc, IH. reflexivity.
Qed.

(** C4: the slug of every branch name is obtained by replacing each ['/']
    and each ['_'] with ['-'] and then deleting, without replacement, each
    character outside [A-Za-z0-9-]; hence it contains only characters of
    [A-Za-z0-9-], and the slug of ["feature/test@123"] is
    ["feature-test123"]. *)
Theorem createBranchSlug_spec (branch : string) :
  createBranchSlug branch = spec_slug branch /\
  all_chars slug_alphabet (createBranchSlug branch) = true /\
  createBranchSlug "feature/test@123" = "feature-test123".
Proof.
  split; [|split; [apply strip_disallowed_alphabet | reflexivity]].
  induction branch as [|c s IH]; [reflexivity|].
  rewrite createBranchSlug_cons, spec_slug_cons, IH. cbv zeta.
  assert (Hc : (if ascii_dec (if ascii_dec c "/" then "-"%char else c) "_" then "-"%char
                else (if ascii_dec c "/" then "-"%char else c)) =
               (if Ascii.eqb c "/" || Ascii.eqb c "_" then "-"%char else c)).
  { destruct (Ascii.eqb_spec c "/") as [->|H1]; [reflexivity|].
    destruct (Ascii.eqb_spec c "_") as [->|H2]; [reflexivity|].
    destruct (ascii_dec c "/"); [contradiction|].
    destruct (ascii_dec c "_"); [contradiction|reflexivity]. }
  rewrite Hc, slug_alphabet_slug_char. reflexivity.
Qed.

(* ------------------------------------------------------------------ *)
(** ** The describe engine *)

Lemma prefix_app (s u : string) : String.prefix s (s +:+ u) = true.
Proof.
  induction s as [|c s IH]; [destruct u; reflexivity|].
  rewrite app_cons. cbn. destruct (ascii_dec c c); [exact IH | contradiction].
Qed.

Lemma app_nonempty (s u : string) : s <> "" -> s +:+ u <> "".
Proof. destruct s; [contradiction | discriminate]. Qed.

Lemma find_tag_app (m : gmap string string) (pre post : list string) (c t : string) (d : nat) :
  Forall (fun x => m !! x = None) pre -> m !! c = Some t ->
  find_tag m (pre ++ c :: post) d = (t, d + length pre).
Proof.
  intros Hpre Hc. revert d.
  induction Hpre as [|x pre Hx Hpre IH]; intros d; cbn.
  - rewrite Hc, Nat.add_0_r. reflexivity.
  - rewrite Hx, IH. f_equal. lia.
Qed.

Lemma build_tagMap_snoc (refs : list (string * string)) (n h : string) :
  build_tagMap (refs ++ [(n, h)]) = <[h := n]> (build_tagMap refs).
Proof. unfold build_tagMap. rewrite foldl_app. reflexivity. Qed.

(** The tag kept for a commit is the last reference to it. *)
Lemma build_tagMap_lookup (refs : list (string * string)) (c t : string) :
  build_tagMap refs !! c = Some t <->
  exists pre post, refs = pre ++ (t, c) :: post /\ Forall (fun r => r.2 <> c) post.
Proof.
  induction refs as [|[n h] refs IH] using rev_ind.
  - split.
    + unfold build_tagMap. cbn. rewrite lookup_empty. discriminate.
    + intros (pre & post & E & _). destruct pre; discriminate.
  - rewrite build_tagMap_snoc. split.
    + destruct (decide (h = c)) as [->|Hne].
      * rewrite lookup_insert_eq. intros [= ->]. exists refs, []. split; [reflexivity | constructor].
      * rewrite lookup_insert_ne by exact Hne. intros Hl.
        destruct (proj1 IH Hl) as (pre & post & -> & Hf).
        exists pre, (post ++ [(n, h)]). split.
        -- rewrite <- app_assoc. reflexivity.
        -- apply Forall_app. split; [exact Hf | constructor; [exact Hne | constructor]].
    + intros (pre & post & E & Hf).
      destruct post as [|y post] using rev_ind.
      * apply app_inj_tail in E as [-> [= -> ->]]. apply lookup_insert_eq.
      * rewrite app_comm_cons, app_assoc in E.
        apply app_inj_tail in E as [-> <-].
        apply Forall_app in Hf as [Hf Hy]. inversion Hy as [|? ? Hnh _]; subst.
        rewrite lookup_insert_ne by (intros E; apply Hnh; exact E).
        apply IH. exists pre, post. split; [reflexivity | exact Hf].
Qed.

(** C10: [getGitDescribe] returns one of three shapes: both results empty;
    both equal to one non-empty tag name; or ["{tag}-{d}-g{short}"] with
    the non-empty tag as second result.  Hence the tag is non-empty exactly
    when the describe string is, and the tag is a prefix of it. *)
Theorem getGitDescribe_shapes (repo : Repository) (hash : string) :
  let '(describe, latestTag) := getGitDescribe repo hash in
  ((describe = "" /\ latestTag = "") \/
   (latestTag <> "" /\ describe = latestTag) \/
   (latestTag <> "" /\
      exists d, describe = latestTag +:+ "-" +:+ itoa d +:+ "-g" +:+ shortHash hash)) /\
  (latestTag <> "" <-> describe <> "") /\
  String.prefix latestTag describe = true.
Proof.
  unfold getGitDescribe.
  destruct (tags repo) as [refs|]; [|repeat split; auto].
  destruct (build_tagMap refs !! hash) as [t|].
  - destruct (String.eqb_spec t "") as [->|Ht].
    + repeat split; auto.
    + split; [right; left; split; [exact Ht | reflexivity]|].
      split; [tauto|]. rewrite <- (app_empty_r t) at 2. apply prefix_app.
  - destruct (repo_Log repo hash) as [[commits e]|]; [|repeat split; auto].
    destruct (find_tag _ commits 0) as [foundTag distance].
    destruct (String.eqb_spec foundTag "") as [->|Ht]; cbn [negb].
    + repeat split; auto.
    + split; [right; right; split; [exact Ht | exists distance; reflexivity]|].
      split; [split; intros _; [apply app_nonempty; exact Ht | exact Ht]|].
      apply prefix_app.
Qed.

(** C5: when the commit is a key of the tag map, [getGitDescribe] returns
    the bare tag name twice (never ["{tag}-0-g{short}"]); so on the default
    branch with a clean tree the version is that tag name. *)
Theorem exact_tag_is_bare (env : Env) (tb td : Time) (p d : string) (info : Info)
    (absPath gitRoot : string) (repo : Repository) (name : RefName) (hash : string)
    (refs : list (string * string)) (t : string) :
  Abs env p = Some absPath ->
  find_git_root env (S (path_measure absPath)) absPath = Some gitRoot ->
  PlainOpen env gitRoot = Some repo ->
  head repo = Some (name, hash) ->
  tags repo = Some refs ->
  build_tagMap refs !! hash = Some t ->
  GetVersionInfo env tb td p d = inr info ->
  getGitDescribe repo hash = (t, t) /\ GitDescribe info = t /\ LatestTag info = t /\
  (GitBranch info = DefaultBranch info -> IsDirty info = false -> t <> "" ->
   Version info = t).
Proof.
  intros Ha Hf Ho Hh Ht Hl H.
  assert (Hd : getGitDescribe repo hash = (t, t)).
  { unfold getGitDescribe. rewrite Ht, Hl. reflexivity. }
  destruct (GetVersionInfo_ok env tb td p d info H)
    as (absPath' & gitRoot' & repo' & name' & hash' & Ha' & Hf' & Ho' & Hh' &
        _ & _ & _ & _ & _ & Hgd & Hdirty & _ & Hv).
  rewrite Ha in Ha'. injection Ha' as <-. rewrite Hf in Hf'. injection Hf' as <-.
  rewrite Ho in Ho'. injection Ho' as <-. rewrite Hh in Hh'. injection Hh' as <- <-.
  rewrite Hd in Hgd. injection Hgd as Hg1 Hg2.
  split; [exact Hd|]. split; [exact Hg1|]. split; [exact Hg2|].
  intros Hb Hc Hne. rewrite Hv, Hb, Hc, String.eqb_refl, Hg1.
  apply String.eqb_neq in Hne. rewrite Hne. reflexivity.
Qed.

Lemma exact_tag_is_bare_witness :
  GetVersionInfo env_main_exact t_w t_w "/repo" "" = inr info_main_exact /\
  Version info_main_exact = "v1.0.0" /\
  (getGitDescribe repo_main_exact h0 = ("v1.0.0", "v1.0.0") /\
   GitDescribe info_main_exact = "v1.0.0" /\ LatestTag info_main_exact = "v1.0.0" /\
   (GitBranch info_main_exact = DefaultBranch info_main_exact ->
    IsDirty info_main_exact = false -> "v1.0.0" <> "" -> Version info_main_exact = "v1.0.0")).
Proof.
  assert (Hr : GetVersionInfo env_main_exact t_w t_w "/repo" "" = inr info_main_exact)
    by (vm_compute; reflexivity).
  split; [exact Hr|]. split; [vm_compute; reflexivity|].
  apply (exact_tag_is_bare env_main_exact t_w t_w "/repo" "" info_main_exact "/repo" "/repo"
           repo_main_exact (Branch "main") h0 [("v1.0.0", h0)] "v1.0.0");
    try (vm_compute; reflexivity); exact Hr.
Defined.

(** C7 (tag choice): the tag kept for a commit is the name of the last tag
    reference to it in the enumeration [repo.Tags()] yields, so two
    resolutions reading the same tag references and the same object store
    select the same tag, whatever else differs between them. *)
Theorem tag_choice_deterministic (r1 r2 : Repository) (hash : string)
    (refs : list (string * string)) :
  tags r1 = Some refs -> tags r2 = Some refs -> objects r1 = objects r2 ->
  getGitDescribe r1 hash = getGitDescribe r2 hash /\
  (forall c t, build_tagMap refs !! c = Some t <->
     exists pre post, refs = pre ++ (t, c) :: post /\ Forall (fun r => r.2 <> c) post).
Proof.
  intros H1 H2 Ho. split.
  - unfold getGitDescribe, repo_Log. rewrite H1, H2, Ho. reflexivity.
  - intros c t. apply build_tagMap_lookup.
Qed.

Lemma tag_choice_deterministic_witness :
  getGitDescribe repo_two_tags_a h5 = ("v1.0.0-rc1-5-g5f6e7d8", "v1.0.0-rc1") /\
  (getGitDescribe repo_two_tags_a h5 = getGitDescribe repo_two_tags_b h5 /\
   (forall c t, build_tagMap two_tags !! c = Some t <->
      exists pre post, two_tags = pre ++ (t, c) :: post /\ Forall (fun r => r.2 <> c) post)).
Proof.
  split; [vm_compute; reflexivity|].
  apply (tag_choice_deterministic repo_two_tags_a repo_two_tags_b h5 two_tags);
    reflexivity.
Defined.

(** C2 (amended): when HEAD is not a key of the tag map and the walk of
    [repo.Log] from HEAD visits the commits [pre], none a key of the map,
    and then a commit [c] mapped to a non-empty tag [t], the result is
    ["{t}-{length pre}-g{short}"] and [t]: the distance is the number of
    commits the walk visits before the tagged one, HEAD included. *)
Theorem describe_distance (repo : Repository) (hash : string)
    (refs : list (string * string)) (pre post : list string) (c t : string) (e : bool) :
  tags repo = Some refs ->
  build_tagMap refs !! hash = None ->
  repo_Log repo hash = Some (pre ++ c :: post, e) ->
  Forall (fun x => build_tagMap refs !! x = None) pre ->
  build_tagMap refs !! c = Some t ->
  t <> "" ->
  getGitDescribe repo hash = (t +:+ "-" +:+ itoa (length pre) +:+ "-g" +:+ shortHash hash, t).
Proof.
  intros Ht Hh Hl Hpre Hc Hne.
  unfold getGitDescribe. rewrite Ht, Hh, Hl.
  rewrite (find_tag_app _ pre post c t 0 Hpre Hc).
  apply String.eqb_neq in Hne. rewrite Hne. reflexivity.
Qed.

Lemma describe_distance_witness :
  getGitDescribe repo_five_past h5 = ("v1.0.0-5-g5f6e7d8", "v1.0.0") /\
  String.length (shortHash h5) = 7 /\ all_chars is_lower_hex (shortHash h5) = true /\
  getGitDescribe repo_five_past h5 =
    ("v1.0.0" +:+ "-" +:+ itoa (length [h5; h4; h3; h2; h1]) +:+ "-g" +:+ shortHash h5,
     "v1.0.0").
Proof.
  split; [vm_compute; reflexivity|]. split; [reflexivity|]. split; [vm_compute; reflexivity|].
  apply (describe_distance repo_five_past h5 [("v1.0.0", h0)] [h5; h4; h3; h2; h1] [] h0
           "v1.0.0" false); try (vm_compute; reflexivity).
  - repeat constructor; vm_compute; reflexivity.
  - discriminate.
Defined.

(** C2 as stated counts the commits strictly between the tag and HEAD: one
    commit past the tag, none lie strictly between, but the distance shown
    is 1. *)
Lemma describe_distance_counts_head :
  repo_Log repo_one_past h1 = Some ([h1] ++ [h0], false) /\
  strictly_between [h1] = 0 /\
  getGitDescribe repo_one_past h1 = ("v1.0.0-1-g1d2c3b4", "v1.0.0") /\
  getGitDescribe repo_one_past h1 <>
    ("v1.0.0" +:+ "-" +:+ itoa (strictly_between [h1]) +:+ "-g" +:+ shortHash h1, "v1.0.0").
Proof.
  split; [vm_compute; reflexivity|]. split; [reflexivity|].
  split; [vm_compute; reflexivity|].
  intros E. vm_compute in E. congruence.
Qed.

(** C6 (code_bug): [getGitDescribe] keys its map by [ref.Hash()], which for
    an annotated tag is the hash of the tag object, not of the commit.  With
    HEAD exactly at a commit carrying an annotated tag, a tag is reachable
    from HEAD, yet the describe field is empty. *)
Theorem annotated_tag_not_described :
  tag_reachable repo_annotated h0 /\
  getGitDescribe repo_annotated h0 = ("", "") /\
  GetVersionInfo env_annotated t_w t_w "/repo" "" = inr info_annotated /\
  GitDescribe info_annotated = "" /\ LatestTag info_annotated = "" /\
  Version info_annotated = "main-g0e1f2a3".
Proof.
  split.
  - exists [("v1.0.0", ht)], "v1.0.0", ht, h0. split; [reflexivity|].
    split; [left|]. split; [vm_compute; reflexivity|].
    apply (ancestor_refl _ h0 []). vm_compute. reflexivity.
  - repeat split; vm_compute; reflexivity.
Qed.

(* ------------------------------------------------------------------ *)
(** ** The dirty-state detector *)

Lemma find_git_root_map_repos (f : Repository -> Repository) (env : Env) (fuel : nat) (p : string) :
  find_git_root (map_repos f env) fuel p = find_git_root env fuel p.
Proof.
  revert p. induction fuel as [|fuel IH]; intros p; [reflexivity|].
  cbn [find_git_root]. rewrite IH. reflexivity.
Qed.

(** C8: when the work tree or its status cannot be obtained, the detector
    answers [false] (clean); replacing the work-tree access of the
    repositories never changes which error, if any, [GetVersionInfo]
    returns, and a successful resolution then reports a clean tree. *)
Theorem status_failure_is_clean (env : Env) (tb td : Time) (p d : string)
    (w : option (option (list FileStatus))) :
  w = None \/ w = Some None ->
  (forall repo, hasUncommittedChanges (set_worktree w repo) = false) /\
  (forall e, GetVersionInfo (map_repos (set_worktree w) env) tb td p d = inl e <->
             GetVersionInfo env tb td p d = inl e) /\
  (forall info, GetVersionInfo (map_repos (set_worktree w) env) tb td p d = inr info ->
                IsDirty info = false).
Proof.
  intros Hw.
  assert (Hclean : forall repo, hasUncommittedChanges (set_worktree w repo) = false).
  { intros repo. destruct Hw as [-> | ->]; reflexivity. }
  split; [exact Hclean|]. split.
  - intros e. unfold GetVersionInfo.
    change (Abs (map_repos (set_worktree w) env)) with (Abs env).
    destruct (Abs env p) as [absPath|]; [|tauto].
    rewrite find_git_root_map_repos.
    destruct (find_git_root env _ absPath) as [gitRoot|]; [|tauto].
    cbn [PlainOpen map_repos].
    destruct (PlainOpen env gitRoot) as [repo|]; cbn [option_map]; [|tauto].
    cbn [head set_worktree].
    destruct (head repo) as [[name hash]|]; [|tauto].
    destruct (getGitDescribe (set_worktree w repo) hash);
      destruct (getGitDescribe repo hash); split; discriminate.
  - intros info H.
    destruct (GetVersionInfo_ok _ tb td p d info H)
      as (absPath & gitRoot & repo & name & hash & _ & _ & Ho & _ & _ & _ & _ & _ & _ & _ & Hdirty & _).
    cbn [PlainOpen map_repos] in Ho.
    destruct (PlainOpen env gitRoot) as [r0|]; [|discriminate].
    injection Ho as <-. rewrite Hdirty. apply Hclean.
Qed.

Lemma status_failure_is_clean_witness :
  GetVersionInfo (map_repos (set_worktree None) env_main_dirty) t_w t_w "/repo" "" =
    inr (info_of (GetVersionInfo (map_repos (set_worktree None) env_main_dirty) t_w t_w "/repo" "")) /\
  Version (info_of (GetVersionInfo (map_repos (set_worktree None) env_main_dirty) t_w t_w "/repo" ""))
    = "v1.0.0-5-g5f6e7d8" /\
  ((forall repo, hasUncommittedChanges (set_worktree None repo) = false) /\
   (forall e, GetVersionInfo (map_repos (set_worktree None) env_main_dirty) t_w t_w "/repo" "" = inl e <->
              GetVersionInfo env_main_dirty t_w t_w "/repo" "" = inl e) /\
   (forall info, GetVersionInfo (map_repos (set_worktree None) env_main_dirty) t_w t_w "/repo" "" = inr info ->
                 IsDirty info = false)).
Proof.
  split; [vm_compute; reflexivity|]. split; [vm_compute; reflexivity|].
  apply (status_failure_is_clean env_main_dirty t_w t_w "/repo" "" None).
  left. reflexivity.
Defined.

(* ------------------------------------------------------------------ *)
(** ** The repository locator *)

Lemma length_trim_right_slash (s : string) :
  String.length (trim_right_slash s) <= String.length s.
Proof.
  induction s as [|c s IH]; [reflexivity|]. cbn [trim_right_slash].
  destruct (_ && _); cbn [String.length]; lia.
Qed.

Lemma last_index_slash_lt (s : string) (i : nat) :
  last_index_slash s = Some i -> i < String.length s.
Proof.
  revert i. induction s as [|c s IH]; intros i H; [discriminate|].
  cbn [last_index_slash] in H. cbn [String.length].
  destruct (last_index_slash s) as [j|].
  - injection H as <-. specialize (IH j eq_refl). lia.
  - destruct (ascii_dec c "/"); [injection H as <-; lia | discriminate].
Qed.

Lemma length_substring_0 (s : string) (i : nat) :
  i <= String.length s -> String.length (String.substring 0 i s) = i.
Proof.
  revert i. induction s as [|c s IH]; intros [|i] Hi; cbn in *; try lia.
  rewrite IH by lia. reflexivity.
Qed.

(** Each step of the upward walk that moves shortens the path. *)
Lemma parentDir_measure (p : string) :
  parentDir p <> p -> path_measure (parentDir p) < path_measure p.
Proof.
  intros Hne. unfold parentDir in *.
  destruct (String.eqb p "/") eqn:Hp.
  { apply String.eqb_eq in Hp. subst p. contradiction. }
  unfold path_measure at 2. rewrite Hp.
  pose proof (length_trim_right_slash p) as Ht.
  destruct (last_index_slash (trim_right_slash p)) as [[|i]|] eqn:L;
    [cbn; lia | | cbn; lia].
  apply last_index_slash_lt in L.
  unfold path_measure.
  destruct (String.eqb (String.substring 0 (S i) (trim_right_slash p)) "/"); [lia|].
  rewrite length_substring_0 by lia. lia.
Qed.

Lemma iter_fixpoint (f : string -> string) (x : string) (n : nat) :
  f x = x -> Nat.iter n f x = x.
Proof.
  intros Hx. induction n as [|n IH]; [reflexivity|].
  rewrite Nat.iter_succ, IH. exact Hx.
Qed.

(** Walking up from [p], the first directory with a [.git] marker is found
    after [n] steps, within the fuel [GetVersionInfo] gives the walk. *)
Lemma find_git_root_chain (env : Env) (n : nat) (p : string) :
  (forall k, k < n -> git_marker env (Nat.iter k parentDir p) = false) ->
  git_marker env (Nat.iter n parentDir p) = true ->
  n <= path_measure p /\
  forall fuel, n < fuel -> find_git_root env fuel p = Some (Nat.iter n parentDir p).
Proof.
  revert p. induction n as [|n IH]; intros p Hk Hn.
  - split; [lia|]. intros [|fuel] Hf; [lia|]. cbn in *. rewrite Hn. reflexivity.
  - assert (Hp : git_marker env p = false) by exact (Hk 0 ltac:(lia)).
    assert (Hq : parentDir p <> p).
    { intros E. rewrite (iter_fixpoint parentDir p (S n) E) in Hn. congruence. }
    rewrite Nat.iter_succ_r in Hn.
    destruct (IH (parentDir p)) as [Hm Hf].
    { intros k Hlt. rewrite <- Nat.iter_succ_r. apply Hk. lia. }
    { exact Hn. }
    pose proof (parentDir_measure p Hq). split; [lia|].
    intros [|fuel] Hlt; [lia|]. cbn [find_git_root]. rewrite Hp.
    apply String.eqb_neq in Hq. rewrite Hq, Nat.iter_succ_r. apply Hf. lia.
Qed.

(** C9 (amended): resolving from a directory [sub] whose upward walk
    reaches the repository root [root] after [n] steps without meeting
    another [.git] on the way gives the same result as resolving from
    [root] itself, for the same clock readings and default-branch
    argument. *)
Theorem subdirectory_resolution (env : Env) (tb td : Time) (root sub d : string) (n : nat) :
  Abs env sub = Some sub -> Abs env root = Some root ->
  git_marker env root = true ->
  Nat.iter n parentDir sub = root ->
  (forall k, k < n -> git_marker env (Nat.iter k parentDir sub) = false) ->
  GetVersionInfo env tb td sub d = GetVersionInfo env tb td root d.
Proof.
  intros Hs Hr Hm Hn Hk.
  assert (Hsub : find_git_root env (S (path_measure sub)) sub = Some root).
  { rewrite <- Hn in Hm |- *. destruct (find_git_root_chain env n sub Hk Hm) as [Hle Hf].
    apply Hf. lia. }
  assert (Hroot : find_git_root env (S (path_measure root)) root = Some root).
  { cbn [find_git_root]. rewrite Hm. reflexivity. }
  unfold GetVersionInfo. rewrite Hs, Hr, Hsub, Hroot. reflexivity.
Qed.

Lemma subdirectory_resolution_witness :
  Abs env_main_dirty "/repo/a/b" = Some "/repo/a/b" /\
  GetVersionInfo env_main_dirty t_w t_w "/repo/a/b" "" =
    GetVersionInfo env_main_dirty t_w t_w "/repo" "".
Proof.
  split; [reflexivity|].
  apply (subdirectory_resolution env_main_dirty t_w t_w "/repo" "/repo/a/b" "" 2);
    try (vm_compute; reflexivity).
  intros k Hk. destruct k as [|[|k]]; [vm_compute; reflexivity | vm_compute; reflexivity | lia].
Defined.

(** C9 as stated fails for a nested repository: [/repo/sub] is a
    subdirectory of the repository at [/repo], but it holds its own [.git],
    so resolving from it reads the nested repository. *)
Lemma nested_repository_differs :
  parentDir "/repo/sub" = "/repo" /\ git_marker env_nested "/repo" = true /\
  GetVersionInfo env_nested t_w t_w "/repo/sub" "" <>
  GetVersionInfo env_nested t_w t_w "/repo" "".
Proof.
  split; [reflexivity|]. split; [vm_compute; reflexivity|].
  intros E. vm_compute in E. congruence.
Qed.

(* ------------------------------------------------------------------ *)
(** ** More on [parentDir] and the locator *)

Lemma app_assoc_str (a b c : string) : (a +:+ b) +:+ c = a +:+ (b +:+ c).
Proof. induction a as [|x a IH]; [reflexivity | rewrite !app_cons, IH; reflexivity]. Qed.

Lemma trim_right_slash_snoc (s : string) :
  trim_right_slash (s +:+ "/") = trim_right_slash s.
Proof.
  induction s as [|c s IH]; [reflexivity|].
  rewrite app_cons. cbn [trim_right_slash]. rewrite IH. reflexivity.
Qed.

(** X1: a trailing ['/'] never changes the parent directory. *)
Theorem parentDir_trailing_slash (s : string) :
  parentDir (s +:+ "/") = parentDir s.
Proof.
  destruct (String.eqb_spec s "") as [->|Hs]; [reflexivity|].
  destruct (String.eqb_spec s "/") as [->|Hs']; [reflexivity|].
  unfold parentDir.
  assert (E1 : String.eqb (s +:+ "/") "/" = false).
  { apply String.eqb_neq. intros E. apply (f_equal String.length) in E.
    rewrite length_app in E. destruct s; [contradiction | cbn in E; lia]. }
  apply String.eqb_neq in Hs'. rewrite E1, Hs', trim_right_slash_snoc. reflexivity.
Qed.

Lemma trim_right_slash_app (u v : string) :
  trim_right_slash v <> "" -> trim_right_slash (u +:+ v) = u +:+ trim_right_slash v.
Proof.
  intros Hv. induction u as [|d u IH]; [reflexivity|].
  rewrite app_cons. cbn [trim_right_slash]. rewrite IH.
  replace (String.eqb (u +:+ trim_right_slash v) "") with false; [reflexivity|].
  symmetry. apply String.eqb_neq. intros E. apply (f_equal String.length) in E.
  rewrite length_app in E. destruct (trim_right_slash v); [contradiction | cbn in E; lia].
Qed.

Lemma trim_right_slash_no_slash (c : string) :
  c <> "" -> no_slash c = true -> trim_right_slash c = c.
Proof.
  induction c as [|d c IH]; intros Hne Hns; [contradiction|].
  unfold no_slash in Hns. cbn [all_chars] in Hns. apply andb_prop in Hns as [Hd Hc].
  cbn [trim_right_slash].
  destruct (String.eqb_spec c "") as [->|Hc']; cbn [trim_right_slash].
  - destruct (ascii_dec d "/") as [->|]; [discriminate | reflexivity].
  - rewrite (IH Hc' Hc). apply String.eqb_neq in Hc'. rewrite Hc'. reflexivity.
Qed.

Lemma last_index_slash_app (u v : string) :
  last_index_slash (u +:+ v) =
  match last_index_slash v with
  | Some i => Some (String.length u + i)
  | None => last_index_slash u
  end.
Proof.
  induction u as [|d u IH]; [rewrite app_nil_l; destruct (last_index_slash v); reflexivity|].
  rewrite app_cons. cbn [last_index_slash String.length]. rewrite IH.
  destruct (last_index_slash v); reflexivity.
Qed.

Lemma last_index_slash_no_slash (c : string) :
  no_slash c = true -> last_index_slash c = None.
Proof.
  induction c as [|d c IH]; intros Hns; [reflexivity|].
  unfold no_slash in Hns. cbn [all_chars] in Hns. apply andb_prop in Hns as [Hd Hc].
  cbn [last_index_slash]. rewrite (IH Hc).
  destruct (ascii_dec d "/") as [->|]; [discriminate | reflexivity].
Qed.

Lemma substring_app_length (u v : string) :
  String.substring 0 (String.length u) (u +:+ v) = u.
Proof. induction u as [|d u IH]; [destruct v; reflexivity | rewrite app_cons; cbn; rewrite IH; reflexivity]. Qed.

Lemma join_abs_snoc (cs : list string) (c : string) :
  join_abs (cs ++ [c]) = join_abs cs +:+ "/" +:+ c.
Proof.
  induction cs as [|x cs IH]; cbn [join_abs app].
  - rewrite app_empty_r. reflexivity.
  - rewrite IH, !app_assoc_str. reflexivity.
Qed.

(** X2: on an absolute path made of components, [parentDir] drops the
    last component, provided that component is non-empty and has no ['/']. *)
Theorem parentDir_render_path (cs : list string) (c : string) :
  c <> "" -> no_slash c = true ->
  parentDir (render_path (cs ++ [c])) = render_path cs.
Proof.
  intros Hc Hns.
  assert (Hr : render_path (cs ++ [c]) = join_abs cs +:+ ("/" +:+ c))
    by (rewrite <- join_abs_snoc; destruct cs; reflexivity).
  rewrite Hr. unfold parentDir.
  replace (String.eqb (join_abs cs +:+ "/" +:+ c) "/") with false.
  2:{ symmetry. apply String.eqb_neq. intros E. apply (f_equal String.length) in E.
      rewrite !length_app in E. destruct c; [contradiction | cbn in E; lia]. }
  rewrite trim_right_slash_app.
  2:{ change ("/" +:+ c) with (String.String "/" c). cbn [trim_right_slash].
      rewrite (trim_right_slash_no_slash c Hc Hns).
      rewrite (proj2 (String.eqb_neq c "") Hc). cbn. discriminate. }
  assert (Ht : trim_right_slash ("/" +:+ c) = "/" +:+ c).
  { change ("/" +:+ c) with (String.String "/" c). cbn [trim_right_slash].
    rewrite (trim_right_slash_no_slash c Hc Hns).
    apply String.eqb_neq in Hc. rewrite Hc. reflexivity. }
  rewrite Ht, last_index_slash_app.
  replace (last_index_slash ("/" +:+ c)) with (Some 0).
  2:{ change ("/" +:+ c) with (String.String "/" c). cbn [last_index_slash].
      rewrite (last_index_slash_no_slash c Hns). reflexivity. }
  rewrite Nat.add_0_r. destruct cs as [|x cs]; [reflexivity|].
  destruct (String.length (join_abs (x :: cs))) as [|k] eqn:L; [discriminate L|].
  rewrite <- L. change (render_path (x :: cs)) with (join_abs (x :: cs)).
  apply substring_app_length.
Qed.

Lemma parentDir_render_path_witness :
  parentDir "/home/dev/project" = "/home/dev" /\
  parentDir (render_path (["home"; "dev"] ++ ["project"])) = render_path ["home"; "dev"].
Proof.
  split; [reflexivity|].
  apply parentDir_render_path; [discriminate | reflexivity].
Defined.

Lemma find_git_root_none (env : Env) (n : nat) (p : string) :
  (forall k, k <= n -> git_marker env (Nat.iter k parentDir p) = false) ->
  parentDir (Nat.iter n parentDir p) = Nat.iter n parentDir p ->
  forall fuel, find_git_root env fuel p = None.
Proof.
  revert p. induction n as [|n IH]; intros p Hk Hn fuel; destruct fuel as [|fuel];
    try reflexivity; cbn [find_git_root].
  - pose proof (Hk 0 ltac:(lia)) as H0. cbn in H0, Hn.
    rewrite H0, Hn, String.eqb_refl. reflexivity.
  - pose proof (Hk 0 ltac:(lia)) as H0. cbn in H0. rewrite H0.
    destruct (String.eqb (parentDir p) p); [reflexivity|].
    apply IH.
    + intros k Hle. rewrite <- Nat.iter_succ_r. apply Hk. lia.
    + rewrite <- !Nat.iter_succ_r. exact Hn.
Qed.

(** X3: when no directory from the starting one up to the file-system root
    has a [.git] entry, [GetVersionInfo] fails with the "no .git found"
    error naming the absolute starting path. *)
Theorem locator_not_found (env : Env) (tb td : Time) (p d absPath : string) (n : nat) :
  Abs env p = Some absPath ->
  (forall k, k <= n -> git_marker env (Nat.iter k parentDir absPath) = false) ->
  parentDir (Nat.iter n parentDir absPath) = Nat.iter n parentDir absPath ->
  GetVersionInfo env tb td p d = inl (ErrNoGit absPath).
Proof.
  intros Ha Hk Hn. unfold GetVersionInfo. rewrite Ha.
  rewrite (find_git_root_none env n absPath Hk Hn). reflexivity.
Qed.

Lemma locator_not_found_witness :
  GetVersionInfo env_main_dirty t_w t_w "/other/x" "" = inl (ErrNoGit "/other/x").
Proof.
  apply (locator_not_found env_main_dirty t_w t_w "/other/x" "" "/other/x" 2);
    [reflexivity | | reflexivity].
  intros k Hk. destruct k as [|[|[|k]]]; try (vm_compute; reflexivity). lia.
Defined.

(* ------------------------------------------------------------------ *)
(** ** More on [GetVersionInfo] *)

Lemma opened_repo_ok (env : Env) (tb td : Time) (p d : string) (repo : Repository) (info : Info) :
  opened_repo env p = Some repo ->
  GetVersionInfo env tb td p d = inr info ->
  exists name hash,
    head repo = Some (name, hash) /\
    DefaultBranch info = (if String.eqb d "" then detectDefaultBranch repo else d) /\
    GitCommit info = hash /\
    GitCommitShort info = shortHash hash /\
    GitBranch info = (if IsBranch name then Short name else "HEAD") /\
    GitBranchSlug info = createBranchSlug (GitBranch info) /\
    (GitDescribe info, LatestTag info) = getGitDescribe repo hash /\
    IsDirty info = hasUncommittedChanges repo /\
    Version info =
      (let v := if String.eqb (GitBranch info) (DefaultBranch info) then
                  if negb (String.eqb (GitDescribe info) "") then GitDescribe info
                  else GitBranchSlug info +:+ "-g" +:+ GitCommitShort info
                else GitBranchSlug info +:+ "-g" +:+ GitCommitShort info in
       if IsDirty info then v +:+ "-" +:+ format_stamp td else v).
Proof.
  intros Hr H.
  destruct (GetVersionInfo_ok env tb td p d info H)
    as (a & g & r & name & hash & Ha & Hf & Ho & Hh & Hd & Hc & Hs & Hb & Hsl & Hg & Hdi & _ & Hv).
  unfold opened_repo in Hr. rewrite Ha, Hf, Ho in Hr. injection Hr as <-.
  exists name, hash. repeat split; assumption.
Qed.

(** X4: when the opened repository has no resolvable HEAD (no commit yet),
    [GetVersionInfo] fails with the HEAD error, whatever the default branch
    argument and the clock. *)
Theorem unborn_head_fails (env : Env) (tb td : Time) (p d : string) (repo : Repository) :
  opened_repo env p = Some repo -> head repo = None ->
  GetVersionInfo env tb td p d = inl ErrHead.
Proof.
  intros Hr Hh. unfold opened_repo in Hr. unfold GetVersionInfo.
  destruct (Abs env p) as [absPath|]; [|discriminate].
  destruct (find_git_root env _ absPath) as [gitRoot|]; [|discriminate].
  rewrite Hr, Hh. reflexivity.
Qed.

Lemma unborn_head_fails_witness :
  GetVersionInfo env_unborn t_w t_w "/repo" "main" = inl ErrHead.
Proof.
  apply (unborn_head_fails env_unborn t_w t_w "/repo" "main" repo_unborn);
    vm_compute; reflexivity.
Defined.

(** X5: a non-empty default branch argument is used as given: detection is
    skipped and the result reports exactly that branch. *)
Theorem default_branch_override (env : Env) (tb td : Time) (p d : string) (info : Info) :
  d <> "" -> GetVersionInfo env tb td p d = inr info -> DefaultBranch info = d.
Proof.
  intros Hd H.
  destruct (GetVersionInfo_ok env tb td p d info H)
    as (a & g & r & name & hash & _ & _ & _ & _ & Hdef & _).
  apply String.eqb_neq in Hd. rewrite Hd in Hdef. exact Hdef.
Qed.

Lemma default_branch_override_witness :
  GetVersionInfo env_main_dirty t_w t_w "/repo" "develop" =
    inr (info_of (GetVersionInfo env_main_dirty t_w t_w "/repo" "develop")) /\
  DefaultBranch (info_of (GetVersionInfo env_main_dirty t_w t_w "/repo" "develop")) = "develop".
Proof.
  assert (H : GetVersionInfo env_main_dirty t_w t_w "/repo" "develop" =
              inr (info_of (GetVersionInfo env_main_dirty t_w t_w "/repo" "develop")))
    by (vm_compute; reflexivity).
  split; [exact H|].
  exact (default_branch_override env_main_dirty t_w t_w "/repo" "develop" _
           ltac:(discriminate) H).
Defined.

(** X6: on a detached HEAD the branch is reported as ["HEAD"] with slug
    ["HEAD"]; unless the default branch is itself named ["HEAD"], the
    version is ["HEAD-g{short}"] (plus the dirty suffix), so tags, even on
    the HEAD commit, are not used. *)
Theorem detached_head_version (env : Env) (tb td : Time) (p d : string)
    (repo : Repository) (n hash : string) (info : Info) :
  opened_repo env p = Some repo ->
  head repo = Some (NonBranch n, hash) ->
  GetVersionInfo env tb td p d = inr info ->
  GitBranch info = "HEAD" /\ GitBranchSlug info = "HEAD" /\
  (DefaultBranch info <> "HEAD" ->
   Version info = (let v := "HEAD-g" +:+ shortHash hash in
                   if IsDirty info then v +:+ "-" +:+ format_stamp td else v)).
Proof.
  intros Hr Hh H.
  destruct (opened_repo_ok env tb td p d repo info Hr H)
    as (name & hash' & Hh' & _ & _ & Hs & Hb & Hsl & _ & _ & Hv).
  rewrite Hh in Hh'. injection Hh' as <- <-. cbn [IsBranch] in Hb.
  assert (Hsl' : GitBranchSlug info = "HEAD") by (rewrite Hsl, Hb; reflexivity).
  split; [exact Hb|]. split; [exact Hsl'|].
  intros Hd. rewrite Hv, Hb, Hsl', Hs.
  apply not_eq_sym, String.eqb_neq in Hd. rewrite Hd. reflexivity.
Qed.

Lemma detached_head_version_witness :
  GetVersionInfo env_detached t_w t_w "/repo" "" =
    inr (info_of (GetVersionInfo env_detached t_w t_w "/repo" "")) /\
  Version (info_of (GetVersionInfo env_detached t_w t_w "/repo" "")) = "HEAD-g0e1f2a3" /\
  (GitBranch (info_of (GetVersionInfo env_detached t_w t_w "/repo" "")) = "HEAD" /\
   GitBranchSlug (info_of (GetVersionInfo env_detached t_w t_w "/repo" "")) = "HEAD" /\
   (DefaultBranch (info_of (GetVersionInfo env_detached t_w t_w "/repo" "")) <> "HEAD" ->
    Version (info_of (GetVersionInfo env_detached t_w t_w "/repo" "")) =
      (let v := "HEAD-g" +:+ shortHash h0 in
       if IsDirty (info_of (GetVersionInfo env_detached t_w t_w "/repo" ""))
       then v +:+ "-" +:+ format_stamp t_w else v))).
Proof.
  assert (H : GetVersionInfo env_detached t_w t_w "/repo" "" =
              inr (info_of (GetVersionInfo env_detached t_w t_w "/repo" "")))
    by (vm_compute; reflexivity).
  split; [exact H|]. split; [vm_compute; reflexivity|].
  apply (detached_head_version env_detached t_w t_w "/repo" "" repo_detached "HEAD" h0);
    [vm_compute; reflexivity | reflexivity | exact H].
Defined.

Lemma find_tag_empty (cs : list string) (n : nat) : fst (find_tag ∅ cs n) = "".
Proof.
  revert n. induction cs as [|c cs IH]; intros n; [reflexivity|].
  cbn [find_tag]. rewrite lookup_empty. apply IH.
Qed.

Lemma getGitDescribe_no_tags (repo : Repository) (hash : string) :
  tags repo = None \/ tags repo = Some [] -> getGitDescribe repo hash = ("", "").
Proof.
  intros Ht. unfold getGitDescribe.
  destruct Ht as [-> | ->]; [reflexivity|].
  cbn [build_tagMap foldl]. rewrite lookup_empty.
  destruct (repo_Log repo hash) as [[commits e]|]; [|reflexivity].
  pose proof (find_tag_empty commits 0) as Hf.
  destruct (find_tag ∅ commits 0) as [t dist]. cbn in Hf. subst t. reflexivity.
Qed.

(** X7: in a repository without tags (or whose tags cannot be listed),
    describe and the latest tag are empty and the version is
    ["{slug}-g{short}"] (plus the dirty suffix) on every branch, the
    default one included. *)
Theorem untagged_version (env : Env) (tb td : Time) (p d : string)
    (repo : Repository) (info : Info) :
  opened_repo env p = Some repo ->
  tags repo = None \/ tags repo = Some [] ->
  GetVersionInfo env tb td p d = inr info ->
  GitDescribe info = "" /\ LatestTag info = "" /\
  Version info = (let v := GitBranchSlug info +:+ "-g" +:+ GitCommitShort info in
                  if IsDirty info then v +:+ "-" +:+ format_stamp td else v).
Proof.
  intros Hr Ht H.
  destruct (opened_repo_ok env tb td p d repo info Hr H)
    as (name & hash & _ & _ & _ & _ & _ & _ & Hg & _ & Hv).
  rewrite (getGitDescribe_no_tags repo hash Ht) in Hg. injection Hg as Hd Hl.
  split; [exact Hd|]. split; [exact Hl|].
  rewrite Hv, Hd. cbn [String.eqb negb].
  destruct (String.eqb (GitBranch info) (DefaultBranch info)); reflexivity.
Qed.

Lemma untagged_version_witness :
  GetVersionInfo env_untagged t_w t_w "/repo" "" =
    inr (info_of (GetVersionInfo env_untagged t_w t_w "/repo" "")) /\
  Version (info_of (GetVersionInfo env_untagged t_w t_w "/repo" "")) =
    "main-g3b4a5f6-20261016093005" /\
  (GitDescribe (info_of (GetVersionInfo env_untagged t_w t_w "/repo" "")) = "" /\
   LatestTag (info_of (GetVersionInfo env_untagged t_w t_w "/repo" "")) = "" /\
   Version (info_of (GetVersionInfo env_untagged t_w t_w "/repo" "")) =
     (let v := GitBranchSlug (info_of (GetVersionInfo env_untagged t_w t_w "/repo" ""))
               +:+ "-g" +:+ GitCommitShort (info_of (GetVersionInfo env_untagged t_w t_w "/repo" "")) in
      if IsDirty (info_of (GetVersionInfo env_untagged t_w t_w "/repo" ""))
      then v +:+ "-" +:+ format_stamp t_w else v)).
Proof.
  assert (H : GetVersionInfo env_untagged t_w t_w "/repo" "" =
              inr (info_of (GetVersionInfo env_untagged t_w t_w "/repo" "")))
    by (vm_compute; reflexivity).
  split; [exact H|]. split; [vm_compute; reflexivity|].
  apply (untagged_version env_untagged t_w t_w "/repo" "" repo_untagged);
    [vm_compute; reflexivity | right; reflexivity | exact H].
Defined.

(** X8: the version string of a successful run is never empty. *)
Theorem version_nonempty (env : Env) (tb td : Time) (p d : string) (info : Info) :
  GetVersionInfo env tb td p d = inr info -> Version info <> "".
Proof.
  intros H.
  destruct (GetVersionInfo_ok env tb td p d info H)
    as (a & g & r & name & hash & _ & _ & _ & _ & _ & _ & _ & _ & _ & _ & _ & _ & Hv).
  rewrite Hv.
  assert (Hg : forall s t : string, s +:+ "-g" +:+ t <> "").
  { intros s t E. apply (f_equal String.length) in E. rewrite !length_app in E.
    cbn in E. lia. }
  destruct (String.eqb (GitBranch info) (DefaultBranch info));
    [destruct (String.eqb_spec (GitDescribe info) "") as [E|E]; cbn [negb] |];
    destruct (IsDirty info);
    first [apply Hg | apply app_nonempty; first [apply Hg | assumption] | assumption].
Qed.

Lemma version_nonempty_witness :
  GetVersionInfo env_main_exact t_w t_w "/repo" "" = inr info_main_exact /\
  Version info_main_exact <> "".
Proof.
  assert (H : GetVersionInfo env_main_exact t_w t_w "/repo" "" = inr info_main_exact)
    by (vm_compute; reflexivity).
  split; [exact H | exact (version_nonempty env_main_exact t_w t_w "/repo" "" _ H)].
Defined.

(* ------------------------------------------------------------------ *)
(** ** More on the slug, the short hash and the dirty check *)

Lemma replace_char_id (o n : ascii) (s : string) :
  slug_char o = false -> all_chars slug_char s = true -> replace_char o n s = s.
Proof.
  intros Ho. induction s as [|c s IH]; intros Hs; [reflexivity|].
  cbn [all_chars] in Hs. apply andb_prop in Hs as [Hc Hs].
  cbn [replace_char]. rewrite (IH Hs).
  destruct (ascii_dec c o) as [->|]; [congruence | reflexivity].
Qed.

Lemma strip_disallowed_id (s : string) :
  all_chars slug_char s = true -> strip_disallowed s = s.
Proof.
  induction s as [|c s IH]; intros Hs; [reflexivity|].
  cbn [all_chars] in Hs. apply andb_prop in Hs as [Hc Hs].
  cbn [strip_disallowed]. rewrite Hc, (IH Hs). reflexivity.
Qed.

Lemma strip_disallowed_slug_char (s : string) :
  all_chars slug_char (strip_disallowed s) = true.
Proof.
  induction s as [|c s IH]; [reflexivity|].
  cbn [strip_disallowed]. destruct (slug_char c) eqn:Hc; [|exact IH].
  cbn [all_chars]. rewrite Hc, IH. reflexivity.
Qed.

(** X9: a branch name is its own slug exactly when it consists of
    [A-Za-z0-9-] only; in particular slugging a slug changes nothing. *)
Theorem createBranchSlug_fixpoint (branch : string) :
  createBranchSlug branch = branch <-> all_chars slug_char branch = true.
Proof.
  split.
  - intros E. rewrite <- E. apply strip_disallowed_slug_char.
  - intros H. unfold createBranchSlug.
    rewrite (replace_char_id "/" "-" branch) by (reflexivity || exact H).
    rewrite (replace_char_id "_" "-" branch) by (reflexivity || exact H).
    apply strip_disallowed_id, H.
Qed.

Lemma prefix_substring_0 (n : nat) (s : string) :
  String.prefix (String.substring 0 n s) s = true.
Proof.
  revert n. induction s as [|c s IH]; intros [|n]; try reflexivity.
  cbn [String.substring String.prefix]. destruct (ascii_dec c c); [apply IH | contradiction].
Qed.

(** X10: the short commit of a successful run is a prefix of the full
    commit hash, of length 7 when the hash has at least 7 characters. *)
Theorem commit_short_prefix (env : Env) (tb td : Time) (p d : string) (info : Info) :
  GetVersionInfo env tb td p d = inr info ->
  String.prefix (GitCommitShort info) (GitCommit info) = true /\
  (7 <= String.length (GitCommit info) -> String.length (GitCommitShort info) = 7).
Proof.
  intros H.
  destruct (GetVersionInfo_ok env tb td p d info H)
    as (a & g & r & name & hash & _ & _ & _ & _ & _ & Hc & Hs & _).
  rewrite Hs, Hc. unfold shortHash. split.
  - apply prefix_substring_0.
  - apply length_substring_0.
Qed.

Lemma commit_short_prefix_witness :
  GetVersionInfo env_main_exact t_w t_w "/repo" "" = inr info_main_exact /\
  GitCommitShort info_main_exact = "0e1f2a3" /\
  String.prefix (GitCommitShort info_main_exact) (GitCommit info_main_exact) = true /\
  (7 <= String.length (GitCommit info_main_exact) ->
   String.length (GitCommitShort info_main_exact) = 7).
Proof.
  assert (H : GetVersionInfo env_main_exact t_w t_w "/repo" "" = inr info_main_exact)
    by (vm_compute; reflexivity).
  split; [exact H|]. split; [vm_compute; reflexivity|].
  exact (commit_short_prefix env_main_exact t_w t_w "/repo" "" _ H).
Defined.

Lemma changed_spec (c : StatusCode) :
  changed c = true <-> c <> Unmodified /\ c <> Untracked.
Proof. destruct c; unfold changed; cbn; intuition congruence. Qed.

Lemma any_changed_spec (st : list FileStatus) :
  any_changed st = true <->
  exists fs, fs ∈ st /\ (changed (Staging fs) = true \/ changed (Worktree fs) = true).
Proof.
  induction st as [|fs st IH]; cbn [any_changed].
  - split; [discriminate|]. intros (fs & Hin & _). apply elem_of_nil in Hin. contradiction.
  - split.
    + intros H. destruct (changed (Staging fs)) eqn:Hs.
      { exists fs. split; [left | left; exact Hs]. }
      destruct (changed (Worktree fs)) eqn:Hw.
      { exists fs. split; [left | right; exact Hw]. }
      apply IH in H as (fs' & Hin & Hc). exists fs'. split; [right; exact Hin | exact Hc].
    + intros (fs' & Hin & Hc). apply elem_of_cons in Hin as [->|Hin].
      * destruct Hc as [-> | ->]; [reflexivity|]. destruct (changed (Staging fs)); reflexivity.
      * destruct (changed (Staging fs)); [reflexivity|].
        destruct (changed (Worktree fs)); [reflexivity|].
        apply IH. exists fs'. split; assumption.
Qed.

(** X11: the work tree counts as dirty exactly when its status can be read
    and some file has a staging or a work-tree code other than unmodified
    and untracked: untracked files alone never make it dirty, and neither
    does a bare repository or a status error. *)
Theorem dirty_iff (repo : Repository) :
  hasUncommittedChanges repo = true <->
  exists st fs, worktree repo = Some (Some st) /\ fs ∈ st /\
    ((Staging fs <> Unmodified /\ Staging fs <> Untracked) \/
     (Worktree fs <> Unmodified /\ Worktree fs <> Untracked)).
Proof.
  unfold hasUncommittedChanges.
  destruct (worktree repo) as [[st|]|].
  - rewrite any_changed_spec. split.
    + intros (fs & Hin & Hc). exists st, fs. rewrite !changed_spec in Hc. tauto.
    + intros (st' & fs & E & Hin & Hc). injection E as <-.
      exists fs. rewrite !changed_spec. tauto.
  - split; [discriminate|]. intros (st & fs & E & _). discriminate.
  - split; [discriminate|]. intros (st & fs & E & _). discriminate.
Qed.

(* ------------------------------------------------------------------ *)
(** ** More on [detectDefaultBranch] *)

Lemma in_branches (refs : list RefName) (s : string) :
  s ∈ map Short (filter (fun r => IsBranch r = true) refs) <-> Branch s ∈ refs.
Proof.
  change (map Short ?l) with (Short <$> l). rewrite list_elem_of_fmap. split.
  - intros (r & -> & Hr). apply list_elem_of_filter in Hr as [Hb Hr].
    destruct r; [exact Hr | discriminate].
  - intros H. exists (Branch s). split; [reflexivity|].
    apply list_elem_of_filter. split; [reflexivity | exact H].
Qed.

(** X12: with [origin/HEAD] set to [origin/<b>], the detected default
    branch is [b]. *)
Theorem detect_default_branch_origin (repo : Repository) (b : string) :
  origin_head repo = Some ("origin/" +:+ b) -> detectDefaultBranch repo = b.
Proof.
  intros H. unfold detectDefaultBranch. rewrite H, prefix_app, length_app.
  replace (String.length "origin/" + String.length b - 7) with (String.length b)
    by (cbn; lia).
  rewrite !app_cons, app_nil_l. cbn [String.substring].
  rewrite <- (app_empty_r b) at 2. rewrite substring_app_length. reflexivity.
Qed.

Lemma detect_default_branch_origin_witness :
  detectDefaultBranch repo_origin_develop = "develop".
Proof. apply detect_default_branch_origin. reflexivity. Defined.

(** X13: without [origin/HEAD], the detected default branch is ["master"]
    exactly when the references can be listed and include the branch
    [master] but not the branch [main]; in every other case it is
    ["main"].  Only branches count: a tag named [main] does not. *)
Theorem detect_default_branch_fallback (repo : Repository) :
  origin_head repo = None ->
  (detectDefaultBranch repo = "master" <->
   exists refs, references repo = Some refs /\ Branch "master" ∈ refs /\ Branch "main" ∉ refs) /\
  (detectDefaultBranch repo <> "master" -> detectDefaultBranch repo = "main").
Proof.
  intros H. unfold detectDefaultBranch. rewrite H.
  destruct (references repo) as [refs|].
  - case_bool_decide as Hm; [|case_bool_decide as Hs].
    + rewrite in_branches in Hm. split; [|reflexivity]. split; [discriminate|].
      intros (refs' & E & _ & Hn). injection E as <-. contradiction.
    + rewrite in_branches in Hm, Hs. split; [|intros []; reflexivity].
      split; [intros _; exists refs; tauto | reflexivity].
    + rewrite in_branches in Hs. split; [|reflexivity]. split; [discriminate|].
      intros (refs' & E & Hn & _). injection E as <-. contradiction.
  - case_bool_decide as Hm; [apply elem_of_nil in Hm; contradiction|].
    case_bool_decide as Hs; [apply elem_of_nil in Hs; contradiction|].
    split; [|reflexivity]. split; [discriminate|]. intros (refs & E & _). discriminate.
Qed.

Lemma detect_default_branch_fallback_witness :
  detectDefaultBranch repo_master = "master" /\
  ((detectDefaultBranch repo_master = "master" <->
    exists refs, references repo_master = Some refs /\ Branch "master" ∈ refs /\
                 Branch "main" ∉ refs) /\
   (detectDefaultBranch repo_master <> "master" -> detectDefaultBranch repo_master = "main")).
Proof.
  split; [vm_compute; reflexivity|].
  apply detect_default_branch_fallback. reflexivity.
Defined.

(* ------------------------------------------------------------------ *)
(** ** The build time *)

Lemma keep_digits_app (a b : string) : keep_digits (a +:+ b) = keep_digits a +:+ keep_digits b.
Proof.
  induction a as [|c a IH]; [reflexivity|].
  rewrite app_cons. cbn [keep_digits]. rewrite IH. destruct (is_digit c); reflexivity.
Qed.

Lemma keep_digits_id (a : string) : all_chars is_digit a = true -> keep_digits a = a.
Proof.
  induction a as [|c a IH]; intros H; [reflexivity|].
  cbn [all_chars] in H. apply andb_prop in H as [Hc H].
  cbn [keep_digits]. rewrite Hc, (IH H). reflexivity.
Qed.

(** X14: under a valid clock, the build time of a successful run is the
    20-character RFC 3339 form whose digits, read in order, are exactly the
    14-digit timestamp format applied to the same instant. *)
Theorem build_time_shape (env : Env) (tb td : Time) (p d : string) (info : Info) :
  valid_time tb -> GetVersionInfo env tb td p d = inr info ->
  String.length (BuildTime info) = 20 /\ keep_digits (BuildTime info) = format_stamp tb.
Proof.
  intros Ht H.
  destruct (GetVersionInfo_ok env tb td p d info H)
    as (a & g & r & name & hash & _ & _ & _ & _ & _ & _ & _ & _ & _ & _ & _ & Hb & _).
  rewrite Hb. destruct Ht as (Hy & Hm & Hd & Hh & Hmi & Hs).
  destruct (appendInt_4 (year tb) Hy) as [Ly Dy].
  destruct (appendInt_2 (month tb) ltac:(lia)) as [Lm Dm].
  destruct (appendInt_2 (day tb) ltac:(lia)) as [Ld Dd].
  destruct (appendInt_2 (hour tb) ltac:(lia)) as [Lh Dh].
  destruct (appendInt_2 (minute tb) ltac:(lia)) as [Lmi Dmi].
  destruct (appendInt_2 (second tb) ltac:(lia)) as [Ls Ds].
  unfold format_build, format_stamp. split.
  - rewrite !length_app, Ly, Lm, Ld, Lh, Lmi, Ls. reflexivity.
  - rewrite !keep_digits_app, (keep_digits_id _ Dy), (keep_digits_id _ Dm),
      (keep_digits_id _ Dd), (keep_digits_id _ Dh), (keep_digits_id _ Dmi), (keep_digits_id _ Ds).
    change (keep_digits "-") with "". change (keep_digits "T") with "".
    change (keep_digits ":") with "". change (keep_digits "Z") with "".
    rewrite !app_nil_l, app_empty_r. reflexivity.
Qed.

Lemma build_time_shape_witness :
  GetVersionInfo env_main_dirty t_w t_w "/repo" "" = inr info_main_dirty /\
  BuildTime info_main_dirty = "2026-10-16T09:30:05Z" /\
  (String.length (BuildTime info_main_dirty) = 20 /\
   keep_digits (BuildTime info_main_dirty) = format_stamp t_w).
Proof.
  assert (H : GetVersionInfo env_main_dirty t_w t_w "/repo" "" = inr info_main_dirty)
    by (vm_compute; reflexivity).
  split; [exact H|]. split; [vm_compute; reflexivity|].
  apply (build_time_shape env_main_dirty t_w t_w "/repo" ""); [|exact H].
  unfold valid_time; cbn; lia.
Defined.

(* ------------------------------------------------------------------ *)
(** ** The detailed report *)

Lemma split_lines_no_nl (a : string) : no_nl a = true -> split_lines a = [a].
Proof.
  induction a as [|c a IH]; intros H; [reflexivity|].
  unfold no_nl in H. cbn [all_chars] in H. apply andb_prop in H as [Hc H].
  cbn [split_lines]. rewrite (IH H). apply negb_true_iff in Hc. rewrite Hc. reflexivity.
Qed.

Lemma split_lines_line (l a b : string) :
  no_nl l = true -> no_nl a = true ->
  split_lines (l +:+ a +:+ nl +:+ b) = (l +:+ a) :: split_lines b.
Proof.
  intros Hl Ha. rewrite <- app_assoc_str.
  assert (Hla : no_nl (l +:+ a) = true)
    by (unfold no_nl in *; rewrite all_chars_app, Hl, Ha; reflexivity).
  generalize dependent (l +:+ a). clear. intros s.
  induction s as [|c s IH]; intros Hs; [reflexivity|].
  unfold no_nl in Hs. cbn [all_chars] in Hs. apply andb_prop in Hs as [Hc Hs].
  rewrite app_cons. cbn [split_lines]. rewrite (IH Hs).
  apply negb_true_iff in Hc. rewrite Hc. reflexivity.
Qed.

(** X15: when no field contains a line break, the detailed report consists
    of exactly seven lines in a fixed order, each a label padded to 16
    characters followed by the value; an empty latest tag shows as
    ["(none)"] and the dirty flag as ["dirty"] or ["clean"]. *)
Theorem detailed_lines (i : Info) :
  no_nl (Version i) = true -> no_nl (GitCommit i) = true -> no_nl (GitBranch i) = true ->
  no_nl (DefaultBranch i) = true -> no_nl (LatestTag i) = true ->
  no_nl (BuildTime i) = true ->
  split_lines (DetailedString i) =
    [ "Version:        " +:+ Version i;
      "Commit:         " +:+ GitCommit i;
      "Branch:         " +:+ GitBranch i;
      "Default Branch: " +:+ DefaultBranch i;
      "Latest Tag:     " +:+ (if String.eqb (LatestTag i) "" then "(none)" else LatestTag i);
      "Build Time:     " +:+ BuildTime i;
      "Dirty:          " +:+ (if IsDirty i then "dirty" else "clean") ].
Proof.
  intros Hv Hc Hb Hd Ht Hbt. unfold DetailedString.
  assert (Htag : no_nl (if String.eqb (LatestTag i) "" then "(none)" else LatestTag i) = true)
    by (destruct (String.eqb (LatestTag i) ""); [reflexivity | exact Ht]).
  rewrite !split_lines_line by (reflexivity || assumption).
  rewrite split_lines_no_nl; [reflexivity|].
  unfold no_nl. rewrite all_chars_app. destruct (IsDirty i); reflexivity.
Qed.

Lemma detailed_lines_witness :
  split_lines (DetailedString info_main_dirty) =
    [ "Version:        v1.0.0-5-g5f6e7d8-20261016093005";
      "Commit:         " +:+ h5;
      "Branch:         main";
      "Default Branch: main";
      "Latest Tag:     v1.0.0";
      "Build Time:     2026-10-16T09:30:05Z";
      "Dirty:          dirty" ].
Proof.
  rewrite detailed_lines by (vm_compute; reflexivity). vm_compute. reflexivity.
Defined.

(* ------------------------------------------------------------------ *)
(** ** [main] *)

(** X16: the outcome of [main]: it writes nothing to standard output
    exactly when it exits with status 1, which happens exactly when it
    reports a resolution error, and that error is the one [GetVersionInfo]
    returns for the parsed [-path] and [-default-branch]; the exit status
    is always 0, 1 or 2. *)
Theorem main_outcome (args : list string) (parse : list string -> ParseResult)
    (env : Env) (tb td : Time) :
  let o := main_go args parse env tb td in
  (stdout o = "" <-> exit_code o = 1) /\
  (exit_code o = 1 <-> reported_error o <> None) /\
  exit_code o <= 2 /\
  (forall e, reported_error o = Some e ->
   exists fl, parse (tail args) = Parsed fl /\
     GetVersionInfo env tb td (pathFlag fl) (defaultBranchFlag fl) = inl e).
Proof.
  assert (Hh : printHelp <> "") by (vm_compute; discriminate).
  assert (Hn : forall s, s +:+ nl <> "").
  { intros s E. apply (f_equal String.length) in E. rewrite length_app in E. cbn in E. lia. }
  assert (Hhelp : forall c, c <> 1 -> c <= 2 ->
    (printHelp = "" <-> c = 1) /\ (c = 1 <-> @None VersionError <> None) /\ c <= 2 /\
    (forall e, @None VersionError = Some e -> exists fl, parse (tail args) = Parsed fl /\
       GetVersionInfo env tb td (pathFlag fl) (defaultBranchFlag fl) = inl e)).
  { intros c H1 H2. split; [split; intros E; contradiction|].
    split; [split; [intros E; contradiction | intros E; contradiction E; reflexivity]|].
    split; [exact H2 | intros e E; discriminate]. }
  cbv zeta. unfold main_go.
  destruct (Nat.ltb 1 (length args) && String.eqb (nth 1 args "") "help").
  { apply Hhelp; cbn; lia. }
  destruct (parse (tail args)) as [fl| |] eqn:Hp; cbn [stdout exit_code reported_error].
  - destruct (GetVersionInfo env tb td (pathFlag fl) (defaultBranchFlag fl)) as [e|info] eqn:Hg;
      cbn [stdout exit_code reported_error].
    + split; [tauto|]. split; [split; [intros _; discriminate | reflexivity]|].
      split; [lia|]. intros e' E. injection E as <-. exists fl. split; [reflexivity | exact Hg].
    + split; [split; [intros E; exfalso; exact (Hn _ E) | discriminate]|].
      split; [split; [discriminate | intros E; contradiction E; reflexivity]|].
      split; [lia | intros e E; discriminate].
  - apply Hhelp; cbn; lia.
  - apply Hhelp; cbn; lia.
Qed.

(** X17: unless the first argument is [help], a successful run prints the
    version followed by a line break and exits with status 0 whenever
    [-short] is set or [-detailed] is not: [-short] takes precedence over
    [-detailed]. *)
Theorem main_prints_version (args : list string) (parse : list string -> ParseResult)
    (env : Env) (tb td : Time) (fl : Flags) (info : Info) :
  nth 1 args "" <> "help" ->
  parse (tail args) = Parsed fl ->
  GetVersionInfo env tb td (pathFlag fl) (defaultBranchFlag fl) = inr info ->
  shortFlag fl = true \/ detailedFlag fl = false ->
  main_go args parse env tb td = mkOutcome 0 (Version info +:+ nl) None.
Proof.
  intros Hn Hp Hg Hf. unfold main_go.
  apply String.eqb_neq in Hn. rewrite Hn, andb_false_r, Hp, Hg.
  destruct Hf as [-> | ->]; [reflexivity|]. destruct (shortFlag fl); reflexivity.
Qed.

Lemma main_prints_version_witness :
  main_go ["gitversion"; "-short"; "-detailed"; "-path"; "/repo"]
    (parse_fixed (mkFlags true true "/repo" "")) env_main_dirty t_w t_w =
  mkOutcome 0 ("v1.0.0-5-g5f6e7d8-20261016093005" +:+ nl) None.
Proof.
  replace "v1.0.0-5-g5f6e7d8-20261016093005" with (Version info_main_dirty)
    by (vm_compute; reflexivity).
  apply (main_prints_version _ _ env_main_dirty t_w t_w (mkFlags true true "/repo" ""));
    [discriminate | reflexivity | vm_compute; reflexivity | left; reflexivity].
Defined.
